(** * pi_web_sdk: a shallow embedding of the time codec, the stream
      controllers, the event-frame model and the OMF sandbox script.

    Source files embedded here:
    - [pi_web_sdk/controllers/base.py]   (BaseController._format_time)
    - [pi_web_sdk/controllers/stream.py] (StreamController, StreamSetController)
    - [pi_web_sdk/models/event.py]       (EventFrame.to_dict / from_dict)
    - [sandbox_omf.py]                   (create_or_get_element and the batched
                                          write loop of use case 2)

    Python dictionaries are finite maps with string keys ([gmap string _]),
    Python lists are lists, exceptions are an explicit result type, and the
    HTTP client is a log of the requests that were issued. *)

From Stdlib Require Import ZArith DecimalString.
From stdpp Require Import gmap strings list fin_maps.

Set Warnings "-register-all".
Open Scope string_scope.
Open Scope list_scope.
Open Scope nat_scope.

(** ** Python values, exceptions and results *)

Module Py.

(** The dynamically typed values the embedded functions can receive.  A
    [datetime] carries the result of its [utcoffset()] in microseconds:
    [None] for a naive value, [Some off] for an aware one.  [PyObj cls] is
    an instance of any other class, known only by its class name. *)
Record datetime : Type := mk_datetime {
  year : N; month : N; day : N;
  hour : N; minute : N; second : N; microsecond : N;
  utcoffset : option Z
}.

Inductive value : Type :=
  | PyNone
  | PyBool (b : bool)
  | PyInt (z : Z)
  | PyStr (s : string)
  | PyDatetime (d : datetime)
  | PyList (l : list value)
  | PyDict (d : gmap string value)
  | PyObj (cls : string).

(** The exception classes the embedded code raises or catches. *)
Inductive exn : Type :=
  | TypeError (msg : string)
  | KeyError (key : string)
  | ZeroDivisionError
  | PIWebAPIError (message : string)
  | Exception (msg : string)
  | OtherError (cls msg : string).

Inductive result (A : Type) : Type :=
  | Return (a : A)
  | Raise (e : exn).
Arguments Return {A} a.
Arguments Raise {A} e.

(** [x is None] *)
Definition is_none (v : value) : bool :=
  match v with PyNone => true | _ => false end.

(** Truth value testing, as [if x:] does it. *)
Definition truthy (v : value) : bool :=
  match v with
  | PyNone => false
  | PyBool b => b
  | PyInt z => negb (z =? 0)%Z
  | PyStr s => negb (String.eqb s "")
  | PyDatetime _ => true
  | PyList l => match l with [] => false | _ => true end
  | PyDict d => negb (bool_decide (d = ∅))
  | PyObj _ => true
  end.

(** [type(x).__name__] for the built-in classes. *)
Definition type_name (v : value) : string :=
  match v with
  | PyNone => "NoneType"
  | PyBool _ => "bool"
  | PyInt _ => "int"
  | PyStr _ => "str"
  | PyDatetime _ => "datetime.datetime"
  | PyList _ => "list"
  | PyDict _ => "dict"
  | PyObj cls => cls
  end.

(** [str(type(x))], what an f-string prints for [{type(x)}]. *)
Definition type_repr (v : value) : string :=
  "<class '" +:+ type_name v +:+ "'>".

(** [d.get(k)]: the value, or [None] when the key is missing. *)
Definition dict_get (k : string) (d : gmap string value) : value :=
  default PyNone (d !! k).

(** [str(n)] for a natural number, and ["%0<w>d" % n]. *)
Definition str_N (n : N) : string :=
  NilEmpty.string_of_uint (N.to_uint n).

Definition str_nat (n : nat) : string := str_N (N.of_nat n).

Fixpoint zeros (n : nat) : string :=
  match n with O => "" | S n' => "0" +:+ zeros n' end.

Definition pad0 (w : nat) (n : N) : string :=
  let s := str_N n in zeros (w - String.length s) +:+ s.

(** [range(start, stop, step)] for a positive step: the built-in has
    [(stop - start + step - 1) // step] elements [start + k * step]. *)
Definition range (start stop step : nat) : list nat :=
  (λ k, start + k * step) <$> seq 0 ((stop - start + step - 1) `div` step).

(** [l[i:j]] for [0 <= i <= j]; indices past the end are clamped. *)
Definition slice {A} (l : list A) (i j : nat) : list A :=
  take (j - i) (drop i l).

End Py.
Export Py.

(** ** sandbox_omf.py: the batched write of use case 2 *)

Module Batching.

Section chunks.
Context {A : Type}.

(** Lines 341-342: the [batch_values] of each iteration of
    [for batch_idx in range(0, len(values), batch_size)]. *)
Definition batch_starts (values : list A) (batch_size : nat) : list nat :=
  range 0 (length values) batch_size.

Definition batch_at (values : list A) (batch_size batch_idx : nat) : list A :=
  slice values batch_idx (batch_idx + batch_size).

Definition batches (values : list A) (batch_size : nat) : list (list A) :=
  batch_at values batch_size <$> batch_starts values batch_size.

(** Line 336: [total_batches = (len(values) + batch_size - 1) // batch_size]. *)
Definition total_batches (values : list A) (batch_size : nat) : nat :=
  (length values + batch_size - 1) `div` batch_size.

End chunks.

End Batching.

(** ** Effects: a state and exception monad *)

Module Eff.

Section monad.
Context {S : Type}.

Definition M (A : Type) : Type := S → result A * S.

Definition ret {A} (a : A) : M A := λ s, (Return a, s).

Definition bind {A B} (c : M A) (k : A → M B) : M B :=
  λ s, match c s with
       | (Return a, s') => k a s'
       | (Raise e, s') => (Raise e, s')
       end.

Definition raise {A} (e : exn) : M A := λ s, (Raise e, s).

(** A pure computation that may raise. *)
Definition lift {A} (r : result A) : M A := λ s, (r, s).

(** [try: c  except <handles>: h]; the effects of [c] up to the raise stay. *)
Definition try_except {A} (c : M A) (handles : exn → bool) (h : exn → M A) : M A :=
  λ s, match c s with
       | (Return a, s') => (Return a, s')
       | (Raise e, s') => if handles e then h e s' else (Raise e, s')
       end.

Definition modify (f : S → S) : M unit := λ s, (Return (), f s).

End monad.

Arguments M : clear implicits.

End Eff.
Export Eff.

Declare Scope eff_scope.
Delimit Scope eff_scope with eff.
Notation "'let*' x ':=' c 'in' k" := (bind c (λ x, k))
  (at level 10, x pattern, c at level 100, k at level 200) : eff_scope.
Notation "c ';;;' k" := (bind c (λ _, k))
  (at level 100, k at level 200, right associativity) : eff_scope.
Open Scope eff_scope.

(** ** controllers/base.py: the time codec *)

Module TimeCodec.

(** [datetime.isoformat()] with the default separator and [timespec='auto']:
    [YYYY-MM-DDTHH:MM:SS], then [.ffffff] when the microsecond is not zero,
    then the UTC offset of an aware value as [+HH:MM[:SS[.ffffff]]]. *)
Definition format_clock (d : datetime) : string :=
  pad0 2 (hour d) +:+ ":" +:+ pad0 2 (minute d) +:+ ":" +:+ pad0 2 (second d)
  +:+ (if (microsecond d =? 0)%N then "" else "." +:+ pad0 6 (microsecond d)).

Definition format_offset (off : option Z) : string :=
  match off with
  | None => ""
  | Some off =>
      let sign := if (off <? 0)%Z then "-" else "+" in
      let a := Z.to_N (Z.abs off) in
      let hh := (a `div` 3600000000)%N in
      let r := (a `mod` 3600000000)%N in
      let mm := (r `div` 60000000)%N in
      let ss := (r `mod` 60000000)%N in
      sign +:+ pad0 2 hh +:+ ":" +:+ pad0 2 mm
      +:+ (if (ss =? 0)%N then ""
           else ":" +:+ pad0 2 (ss `div` 1000000)%N
                +:+ (if (ss `mod` 1000000 =? 0)%N then ""
                     else "." +:+ pad0 6 (ss `mod` 1000000)%N))
  end.

Definition format_naive (d : datetime) : string :=
  pad0 4 (year d) +:+ "-" +:+ pad0 2 (month d) +:+ "-" +:+ pad0 2 (day d)
  +:+ "T" +:+ format_clock d.

Definition isoformat (d : datetime) : string :=
  format_naive d +:+ format_offset (utcoffset d).

(** [BaseController._format_time] *)
Definition _format_time (time_value : value) : result value :=
  match time_value with
  | PyNone => Return PyNone
  | PyStr _ => Return time_value
  | PyDatetime d => Return (PyStr (isoformat d))
  | _ => Raise (TypeError ("Time value must be str, datetime, or None, got "
                           +:+ type_repr time_value))
  end.

(** The input classes [_format_time] accepts. *)
Definition accepted (time_value : value) : bool :=
  match time_value with
  | PyNone | PyStr _ | PyDatetime _ => true
  | _ => false
  end.

(** The same wall-clock reading with an explicit UTC offset attached, as
    [d.replace(tzinfo=...)] builds it. *)
Definition with_offset (d : datetime) (off : Z) : datetime :=
  mk_datetime (year d) (month d) (day d) (hour d) (minute d) (second d)
              (microsecond d) (Some off).

End TimeCodec.
Export TimeCodec.

(** ** The HTTP client the controllers call *)

Module Client.

Inductive http_method : Type := GET | POST | PUT.

Record request : Type := mk_request {
  req_method : http_method;
  req_path : string;
  req_params : gmap string value;
  req_data : option value
}.

Section client.
(** The remote service: its answer to a request, given the requests
    already served. *)
Variable respond : list request → request → result value.

Definition send (r : request) : M (list request) value :=
  λ log, (respond log r, log ++ [r]).

(** [self.client.get(path, params=params)] and its siblings. *)
Definition client_get (path : string) (params : gmap string value) :=
  send (mk_request GET path params None).
Definition client_post (path : string) (params : gmap string value) :=
  send (mk_request POST path params None).

(** [self.client.put(path, data=data, params=params)] and
    [self.client.post(path, data=data, params=params)]. *)
Definition client_put (path : string) (data : value) (params : gmap string value) :=
  send (mk_request PUT path params (Some data)).
Definition client_post_data (path : string) (data : value)
    (params : gmap string value) :=
  send (mk_request POST path params (Some data)).
End client.

(** [if v: params[k] = v] *)
Definition set_if_truthy (k : string) (v : value) (params : gmap string value)
  : gmap string value :=
  if truthy v then <[k := v]> params else params.

(** What a request carries under a key guarded by [if v:]. *)
Definition sent_if_truthy (v : value) : option value :=
  if truthy v then Some v else None.

End Client.
Export Client.

(** ** controllers/stream.py *)

Module Stream.

Section controllers.
Variable respond : list request → request → result value.

(** [StreamController.get_value] *)
Definition get_value (web_id : string) (selected_fields time desired_units : value)
  : M (list request) value :=
  let params := ∅ in
  let params := set_if_truthy "selectedFields" selected_fields params in
  let* time_str := lift (_format_time time) in
  let params := set_if_truthy "time" time_str params in
  let params := set_if_truthy "desiredUnits" desired_units params in
  client_get respond ("streams/" +:+ web_id +:+ "/value") params.

(** [StreamController.get_recorded] *)
Definition get_recorded (web_id : string)
    (start_time end_time boundary_type max_count include_filtered_values
     filter_expression selected_fields time_zone desired_units : value)
  : M (list request) value :=
  let params := {[ "includeFilteredValues" := include_filtered_values ]} in
  let* start_time_str := lift (_format_time start_time) in
  let params := set_if_truthy "startTime" start_time_str params in
  let* end_time_str := lift (_format_time end_time) in
  let params := set_if_truthy "endTime" end_time_str params in
  let params := set_if_truthy "boundaryType" boundary_type params in
  let params := set_if_truthy "maxCount" max_count params in
  let params := set_if_truthy "filterExpression" filter_expression params in
  let params := set_if_truthy "selectedFields" selected_fields params in
  let params := set_if_truthy "timeZone" time_zone params in
  let params := set_if_truthy "desiredUnits" desired_units params in
  client_get respond ("streams/" +:+ web_id +:+ "/recorded") params.

(** [StreamController.register_update] *)
Definition register_update (web_id : string) (selected_fields : value)
  : M (list request) value :=
  let params := ∅ in
  let params := set_if_truthy "selectedFields" selected_fields params in
  client_post respond ("streams/" +:+ web_id +:+ "/updates") params.

(** [StreamController.retrieve_update] *)
Definition retrieve_update (marker : string) (selected_fields desired_units : value)
  : M (list request) value :=
  let params := ∅ in
  let params := set_if_truthy "selectedFields" selected_fields params in
  let params := set_if_truthy "desiredUnits" desired_units params in
  client_get respond ("streams/updates/" +:+ marker) params.

(** [StreamSetController.register_updates] *)
Definition register_updates (web_ids : list string) (selected_fields : value)
  : M (list request) value :=
  let params := {[ "webId" := PyList (PyStr <$> web_ids) ]} in
  let params := set_if_truthy "selectedFields" selected_fields params in
  client_post respond "streamsets/updates" params.

(** [StreamSetController.retrieve_updates] *)
Definition retrieve_updates (marker : string) (selected_fields desired_units : value)
  : M (list request) value :=
  let params := {[ "marker" := PyStr marker ]} in
  let params := set_if_truthy "selectedFields" selected_fields params in
  let params := set_if_truthy "desiredUnits" desired_units params in
  client_get respond "streamsets/updates" params.

(** [StreamController.get_interpolated] *)
Definition get_interpolated (web_id : string)
    (start_time end_time interval filter_expression include_filtered_values
     selected_fields time_zone desired_units sync_time sync_time_boundary_type : value)
  : M (list request) value :=
  let params := {[ "includeFilteredValues" := include_filtered_values ]} in
  let* start_time_str := lift (_format_time start_time) in
  let params := set_if_truthy "startTime" start_time_str params in
  let* end_time_str := lift (_format_time end_time) in
  let params := set_if_truthy "endTime" end_time_str params in
  let params := set_if_truthy "interval" interval params in
  let params := set_if_truthy "filterExpression" filter_expression params in
  let params := set_if_truthy "selectedFields" selected_fields params in
  let params := set_if_truthy "timeZone" time_zone params in
  let params := set_if_truthy "desiredUnits" desired_units params in
  let* sync_time_str := lift (_format_time sync_time) in
  let params := set_if_truthy "syncTime" sync_time_str params in
  let params := set_if_truthy "syncTimeBoundaryType" sync_time_boundary_type params in
  client_get respond ("streams/" +:+ web_id +:+ "/interpolated") params.

(** [StreamController.get_plot] *)
Definition get_plot (web_id : string)
    (start_time end_time intervals selected_fields time_zone desired_units : value)
  : M (list request) value :=
  let params := ∅ in
  let* start_time_str := lift (_format_time start_time) in
  let params := set_if_truthy "startTime" start_time_str params in
  let* end_time_str := lift (_format_time end_time) in
  let params := set_if_truthy "endTime" end_time_str params in
  let params := set_if_truthy "intervals" intervals params in
  let params := set_if_truthy "selectedFields" selected_fields params in
  let params := set_if_truthy "timeZone" time_zone params in
  let params := set_if_truthy "desiredUnits" desired_units params in
  client_get respond ("streams/" +:+ web_id +:+ "/plot") params.

(** [StreamController.get_summary] *)
Definition get_summary (web_id : string)
    (start_time end_time summary_type summary_duration calculation_basis time_type
     selected_fields time_zone filter_expression : value)
  : M (list request) value :=
  let params := ∅ in
  let* start_time_str := lift (_format_time start_time) in
  let params := set_if_truthy "startTime" start_time_str params in
  let* end_time_str := lift (_format_time end_time) in
  let params := set_if_truthy "endTime" end_time_str params in
  let params := set_if_truthy "summaryType" summary_type params in
  let params := set_if_truthy "summaryDuration" summary_duration params in
  let params := set_if_truthy "calculationBasis" calculation_basis params in
  let params := set_if_truthy "timeType" time_type params in
  let params := set_if_truthy "selectedFields" selected_fields params in
  let params := set_if_truthy "timeZone" time_zone params in
  let params := set_if_truthy "filterExpression" filter_expression params in
  client_get respond ("streams/" +:+ web_id +:+ "/summary") params.

(** [StreamController.update_value] *)
Definition update_value (web_id : string) (value buffer_option update_option : Py.value)
  : M (list request) Py.value :=
  let params := ∅ in
  let params := set_if_truthy "bufferOption" buffer_option params in
  let params := set_if_truthy "updateOption" update_option params in
  client_put respond ("streams/" +:+ web_id +:+ "/value") value params.

(** [StreamController.update_values] *)
Definition update_values (web_id : string) (values buffer_option update_option : value)
  : M (list request) value :=
  let params := ∅ in
  let params := set_if_truthy "bufferOption" buffer_option params in
  let params := set_if_truthy "updateOption" update_option params in
  client_post_data respond ("streams/" +:+ web_id +:+ "/recorded") values params.

End controllers.

End Stream.

(** ** controllers/stream.py: the stream-set queries *)

Module StreamSet.

Section controllers.
Variable respond : list request → request → result value.

(** [StreamSetController.get_values] *)
Definition get_values (web_ids selected_fields time desired_units : value)
  : M (list request) value :=
  let params := {[ "webId" := web_ids ]} in
  let params := set_if_truthy "selectedFields" selected_fields params in
  let* time_str := lift (_format_time time) in
  let params := set_if_truthy "time" time_str params in
  let params := set_if_truthy "desiredUnits" desired_units params in
  client_get respond "streamsets/value" params.

(** [StreamSetController.get_recorded] *)
Definition get_recorded
    (web_ids start_time end_time boundary_type max_count include_filtered_values
     filter_expression selected_fields time_zone desired_units : value)
  : M (list request) value :=
  let params := {[ "webId" := web_ids;
                   "includeFilteredValues" := include_filtered_values ]} in
  let* start_time_str := lift (_format_time start_time) in
  let params := set_if_truthy "startTime" start_time_str params in
  let* end_time_str := lift (_format_time end_time) in
  let params := set_if_truthy "endTime" end_time_str params in
  let params := set_if_truthy "boundaryType" boundary_type params in
  let params := set_if_truthy "maxCount" max_count params in
  let params := set_if_truthy "filterExpression" filter_expression params in
  let params := set_if_truthy "selectedFields" selected_fields params in
  let params := set_if_truthy "timeZone" time_zone params in
  let params := set_if_truthy "desiredUnits" desired_units params in
  client_get respond "streamsets/recorded" params.

(** [StreamSetController.get_interpolated] *)
Definition get_interpolated
    (web_ids start_time end_time interval filter_expression include_filtered_values
     selected_fields time_zone desired_units sync_time sync_time_boundary_type : value)
  : M (list request) value :=
  let params := {[ "webId" := web_ids;
                   "includeFilteredValues" := include_filtered_values ]} in
  let* start_time_str := lift (_format_time start_time) in
  let params := set_if_truthy "startTime" start_time_str params in
  let* end_time_str := lift (_format_time end_time) in
  let params := set_if_truthy "endTime" end_time_str params in
  let params := set_if_truthy "interval" interval params in
  let params := set_if_truthy "filterExpression" filter_expression params in
  let params := set_if_truthy "selectedFields" selected_fields params in
  let params := set_if_truthy "timeZone" time_zone params in
  let params := set_if_truthy "desiredUnits" desired_units params in
  let* sync_time_str := lift (_format_time sync_time) in
  let params := set_if_truthy "syncTime" sync_time_str params in
  let params := set_if_truthy "syncTimeBoundaryType" sync_time_boundary_type params in
  client_get respond "streamsets/interpolated" params.

(** [StreamSetController.get_plot] *)
Definition get_plot
    (web_ids start_time end_time intervals selected_fields time_zone desired_units : value)
  : M (list request) value :=
  let params := {[ "webId" := web_ids ]} in
  let* start_time_str := lift (_format_time start_time) in
  let params := set_if_truthy "startTime" start_time_str params in
  let* end_time_str := lift (_format_time end_time) in
  let params := set_if_truthy "endTime" end_time_str params in
  let params := set_if_truthy "intervals" intervals params in
  let params := set_if_truthy "selectedFields" selected_fields params in
  let params := set_if_truthy "timeZone" time_zone params in
  let params := set_if_truthy "desiredUnits" desired_units params in
  client_get respond "streamsets/plot" params.

(** [StreamSetController.get_summaries] *)
Definition get_summaries
    (web_ids start_time end_time summary_type summary_duration calculation_basis
     time_type selected_fields time_zone filter_expression : value)
  : M (list request) value :=
  let params := {[ "webId" := web_ids ]} in
  let* start_time_str := lift (_format_time start_time) in
  let params := set_if_truthy "startTime" start_time_str params in
  let* end_time_str := lift (_format_time end_time) in
  let params := set_if_truthy "endTime" end_time_str params in
  let params := set_if_truthy "summaryType" summary_type params in
  let params := set_if_truthy "summaryDuration" summary_duration params in
  let params := set_if_truthy "calculationBasis" calculation_basis params in
  let params := set_if_truthy "timeType" time_type params in
  let params := set_if_truthy "selectedFields" selected_fields params in
  let params := set_if_truthy "timeZone" time_zone params in
  let params := set_if_truthy "filterExpression" filter_expression params in
  client_get respond "streamsets/summaries" params.

(** [StreamSetController.update_values]; the call names no query
    parameters. *)
Definition update_values (updates : value) : M (list request) value :=
  client_put respond "streamsets/value" updates ∅.

End controllers.

End StreamSet.

(** ** models/event.py *)

Module Event.

(** The fields [EventFrame] inherits from [PIWebAPIObject], as
    [EventFrame.from_dict] names them. *)
Record PIWebAPIObject : Type := mk_PIWebAPIObject {
  web_id : value; id : value; name : value;
  description : value; path : value; links : value
}.

Record EventFrame : Type := mk_EventFrame {
  ef_base : PIWebAPIObject;
  acknowledge_date : value;
  acknowledged_by : value;
  are_values_captured : value;
  can_be_acknowledged : value;
  category_names : value;
  end_time : value;
  has_children : value;
  is_acknowledged : value;
  is_annotation : value;
  is_locked : value;
  referenced_element_web_id : value;
  security_descriptor : value;
  severity : value;
  start_time : value;
  template_name : value
}.

(** [if v is not None or not exclude_none: result[k] = v] *)
Definition set_field (k : string) (v : value) (exclude_none : bool)
    (result : gmap string value) : gmap string value :=
  if negb (is_none v) || negb exclude_none then <[k := v]> result else result.

Section event_frame.
(** The methods of the base class, [models/base.py], which is not among
    the sources: [super().to_dict(exclude_none)] on an event frame, and
    [PIWebAPIObject.from_dict(data)]. *)
Variable super_to_dict : EventFrame → bool → gmap string value.
Variable PIWebAPIObject_from_dict : gmap string value → PIWebAPIObject.

(** [EventFrame.to_dict] *)
Definition to_dict (self : EventFrame) (exclude_none : bool) : gmap string value :=
  let result := super_to_dict self exclude_none in
  let result := set_field "AcknowledgeDate" (acknowledge_date self) exclude_none result in
  let result := set_field "AcknowledgedBy" (acknowledged_by self) exclude_none result in
  let result := set_field "AreValuesCaptured" (are_values_captured self) exclude_none result in
  let result := set_field "CanBeAcknowledged" (can_be_acknowledged self) exclude_none result in
  let result := set_field "CategoryNames" (category_names self) exclude_none result in
  let result := set_field "EndTime" (end_time self) exclude_none result in
  let result := set_field "HasChildren" (has_children self) exclude_none result in
  let result := set_field "IsAcknowledged" (is_acknowledged self) exclude_none result in
  let result := set_field "IsAnnotation" (is_annotation self) exclude_none result in
  let result := set_field "IsLocked" (is_locked self) exclude_none result in
  let result := set_field "ReferencedElementWebId" (referenced_element_web_id self) exclude_none result in
  let result := set_field "SecurityDescriptor" (security_descriptor self) exclude_none result in
  let result := set_field "Severity" (severity self) exclude_none result in
  let result := set_field "StartTime" (start_time self) exclude_none result in
  let result := set_field "TemplateName" (template_name self) exclude_none result in
  result.

(** [EventFrame.from_dict] *)
Definition from_dict (data : gmap string value) : EventFrame :=
  let base := PIWebAPIObject_from_dict data in
  mk_EventFrame
    (mk_PIWebAPIObject (web_id base) (id base) (name base)
                       (description base) (path base) (links base))
    (dict_get "AcknowledgeDate" data)
    (dict_get "AcknowledgedBy" data)
    (dict_get "AreValuesCaptured" data)
    (dict_get "CanBeAcknowledged" data)
    (dict_get "CategoryNames" data)
    (dict_get "EndTime" data)
    (dict_get "HasChildren" data)
    (dict_get "IsAcknowledged" data)
    (dict_get "IsAnnotation" data)
    (dict_get "IsLocked" data)
    (dict_get "ReferencedElementWebId" data)
    (dict_get "SecurityDescriptor" data)
    (dict_get "Severity" data)
    (dict_get "StartTime" data)
    (dict_get "TemplateName" data).

End event_frame.

(** The dictionary keys [EventFrame] itself writes and reads, each with
    the field it stands for. *)
Definition event_fields : list (string * (EventFrame → value)) :=
  [ ("AcknowledgeDate", acknowledge_date); ("AcknowledgedBy", acknowledged_by);
    ("AreValuesCaptured", are_values_captured);
    ("CanBeAcknowledged", can_be_acknowledged);
    ("CategoryNames", category_names); ("EndTime", end_time);
    ("HasChildren", has_children); ("IsAcknowledged", is_acknowledged);
    ("IsAnnotation", is_annotation); ("IsLocked", is_locked);
    ("ReferencedElementWebId", referenced_element_web_id);
    ("SecurityDescriptor", security_descriptor); ("Severity", severity);
    ("StartTime", start_time); ("TemplateName", template_name) ].

Definition event_keys : list string := event_fields.*1.

(** [EventFrameCategory] *)
Module Category.

Record EventFrameCategory : Type := mk_EventFrameCategory {
  cat_base : PIWebAPIObject;
  security_descriptor : value
}.

Section event_frame_category.
(** The base class methods, as for [EventFrame]. *)
Variable super_to_dict : EventFrameCategory → bool → gmap string value.
Variable PIWebAPIObject_from_dict : gmap string value → PIWebAPIObject.

(** [EventFrameCategory.to_dict] *)
Definition to_dict (self : EventFrameCategory) (exclude_none : bool)
  : gmap string value :=
  let result := super_to_dict self exclude_none in
  let result :=
    set_field "SecurityDescriptor" (security_descriptor self) exclude_none result in
  result.

(** [EventFrameCategory.from_dict] *)
Definition from_dict (data : gmap string value) : EventFrameCategory :=
  let base := PIWebAPIObject_from_dict data in
  mk_EventFrameCategory
    (mk_PIWebAPIObject (web_id base) (id base) (name base)
                       (description base) (path base) (links base))
    (dict_get "SecurityDescriptor" data).

End event_frame_category.

End Category.

End Event.

(** ** sandbox_omf.py: the script and the remote service it talks to *)

Module Sandbox.

(** The remote operations the embedded parts of the script invoke. *)
Inductive call : Type :=
  | AssetDatabase_get_elements (parent_webid name_filter : string)
  | Element_get_elements (parent_webid name_filter : string)
  | AssetDatabase_create_element (parent_webid : string) (element_def : value)
  | Element_create_element (parent_webid : string) (element_def : value)
  | OMF_send_time_series_data (container_id : string) (values : list value).

(** What the script does to the outside, in order: remote calls with
    their outcome, [time.sleep] in milliseconds, lines printed. *)
Inductive event : Type :=
  | EvCall (c : call) (r : result value)
  | EvSleep (ms : nat)
  | EvPrint (line : string).

Record world (R : Type) : Type := mk_world {
  remote_state : R;
  trace : list event
}.
Arguments mk_world {R} _ _.
Arguments remote_state {R} _.
Arguments trace {R} _.

(** Python operations on response values. *)

(** An instance of a class of its own is known by the name of its class.
    What the operations of the script do on it is for the class to say: it
    may have a [get] method, be iterable or be subscriptable, and where it is
    not, the message of the exception names the bare class and not the
    dotted name.  For the class named [cls]: the outcome of
    [o.get("Items", [])], the elements of [for x in o], and [o[k]]. *)
Record objects : Type := mk_objects {
  obj_get : string → result value;
  obj_iter : string → result (list value);
  obj_getitem : string → string → result value
}.

(** [v.get("Items", [])].  A dict answers with the entry or the default;
    the other built-in values have no attribute [get], and the message of
    the [AttributeError] names them as [type_name] does. *)
Definition get_items (objs : objects) (v : value) : result value :=
  match v with
  | PyDict d => Return (default (PyList []) (d !! "Items"))
  | PyObj cls => obj_get objs cls
  | PyNone | PyBool _ | PyInt _ | PyStr _ | PyDatetime _ | PyList _ =>
      Raise (OtherError "AttributeError"
               ("'" +:+ type_name v +:+ "' object has no attribute 'get'"))
  end.

(** The elements a [for] loop visits. *)
Definition py_iter (objs : objects) (v : value) : result (list value) :=
  match v with
  | PyList l => Return l
  | PyStr s => Return ((λ c, PyStr (String c "")) <$> String.list_ascii_of_string s)
  | PyDict d => Return (PyStr <$> (map_to_list d).*1)
  | PyObj cls => obj_iter objs cls
  | PyNone | PyBool _ | PyInt _ | PyDatetime _ =>
      Raise (TypeError ("'" +:+ type_name v +:+ "' object is not iterable"))
  end.

(** [v[k]] for a string key. *)
Definition getitem (objs : objects) (v : value) (k : string) : result value :=
  match v with
  | PyDict d => match d !! k with
                | Some x => Return x
                | None => Raise (KeyError k)
                end
  | PyStr _ => Raise (TypeError "string indices must be integers, not 'str'")
  | PyList _ => Raise (TypeError "list indices must be integers or slices, not str")
  | PyObj cls => obj_getitem objs cls k
  | PyNone | PyBool _ | PyInt _ | PyDatetime _ =>
      Raise (TypeError ("'" +:+ type_name v +:+ "' object is not subscriptable"))
  end.

(** [v == s] for a string [s]. *)
Definition eq_str (v : value) (s : string) : bool :=
  match v with PyStr s' => String.eqb s' s | _ => false end.

(** [for elem in items: if elem["Name"] == name: return elem] *)
Fixpoint find_named (objs : objects) (name : string) (items : list value)
  : result (option value) :=
  match items with
  | [] => Return None
  | elem :: rest =>
      match getitem objs elem "Name" with
      | Raise e => Raise e
      | Return n =>
          if eq_str n name then Return (Some elem) else find_named objs name rest
      end
  end.

Definition lookup_named (objs : objects) (name : string) (response : value)
  : result (option value) :=
  match get_items objs response with
  | Raise e => Raise e
  | Return items =>
      match py_iter objs items with
      | Raise e => Raise e
      | Return l => find_named objs name l
      end
  end.

Definition is_PIWebAPIError (e : exn) : bool :=
  match e with PIWebAPIError _ => true | _ => false end.

Definition exn_message (e : exn) : string :=
  match e with
  | TypeError m | PIWebAPIError m | Exception m | OtherError _ m => m
  | KeyError k => k
  | ZeroDivisionError => "division by zero"
  end.

(** The class an exception is an instance of. *)
Definition exn_class (e : exn) : string :=
  match e with
  | TypeError _ => "TypeError"
  | KeyError _ => "KeyError"
  | ZeroDivisionError => "ZeroDivisionError"
  | PIWebAPIError _ => "PIWebAPIError"
  | Exception _ => "Exception"
  | OtherError cls _ => cls
  end.

Section script.
Context {R : Type}.
(** The remote service: the outcome of a call and the state it leaves. *)
Variable remote : call → R → result value * R.
(** The classes of their own whose instances the service may answer with. *)
Variable objs : objects.

Definition invoke (c : call) : M (world R) value :=
  λ w, let '(r, σ) := remote c (remote_state w) in
       (r, mk_world σ (trace w ++ [EvCall c r])).

Definition print (line : string) : M (world R) unit :=
  modify (λ w, mk_world (remote_state w) (trace w ++ [EvPrint line])).

(** [time.sleep(seconds)], the duration in milliseconds. *)
Definition sleep (ms : nat) : M (world R) unit :=
  modify (λ w, mk_world (remote_state w) (trace w ++ [EvSleep ms])).

Definition get_elements (is_root : bool) (parent_webid name : string) :=
  invoke (if is_root then AssetDatabase_get_elements parent_webid name
          else Element_get_elements parent_webid name).

Definition create_element (is_root : bool) (parent_webid : string) (element_def : value) :=
  invoke (if is_root then AssetDatabase_create_element parent_webid element_def
          else Element_create_element parent_webid element_def).

(** Lines 116-155: [create_or_get_element]. *)
Definition create_or_get_element
    (parent_webid name description parent_path : string) (is_root : bool)
  : M (world R) value :=
  let full_path :=
    if negb (String.eqb parent_path "") then parent_path +:+ "\" +:+ name else name in
  (* Try to find existing *)
  let* found :=
    try_except
      (let* existing := get_elements is_root parent_webid name in
       let* hit := lift (lookup_named objs name existing) in
       match hit with
       | Some elem => print ("  " +:+ full_path +:+ " already exists") ;;; ret (Some elem)
       | None => ret None
       end)
      (λ _, true)
      (λ _, ret None) in
  match found with
  | Some elem => ret elem
  | None =>
      (* Create new *)
      let element_def :=
        PyDict {[ "Name" := PyStr name; "Description" := PyStr description ]} in
      create_element is_root parent_webid element_def ;;;
      sleep 500 ;;;
      (* Retrieve *)
      let* result := get_elements is_root parent_webid name in
      let* hit := lift (lookup_named objs name result) in
      match hit with
      | Some elem => print ("  [OK] Created " +:+ full_path) ;;; ret elem
      | None => raise (Exception ("Failed to create " +:+ name))
      end
  end.

(** Lines 341-360: the loop over the batches of one container; the result
    is the final [write_error]. *)
Fixpoint write_batches (container_name container_id : string) (values : list value)
    (batch_size total_batches : nat) (batch_idxs : list nat) : M (world R) bool :=
  match batch_idxs with
  | [] => ret false
  | batch_idx :: rest =>
      let batch_values := slice values batch_idx (batch_idx + batch_size) in
      let batch_num := batch_idx `div` batch_size + 1 in
      let* caught :=
        try_except
          (invoke (OMF_send_time_series_data container_id batch_values) ;;;
           (if (batch_num `mod` 2 =? 0) || (batch_num =? total_batches)
            then print ("    Batch " +:+ str_nat batch_num +:+ "/"
                        +:+ str_nat total_batches +:+ " complete")
            else ret ()) ;;;
           ret None)
          is_PIWebAPIError
          (λ exc, ret (Some exc)) in
      match caught with
      | None =>
          write_batches container_name container_id values batch_size total_batches rest
      | Some exc =>
          print ("  [X] Error writing batch " +:+ str_nat batch_num +:+ " for "
                 +:+ container_name +:+ ": " +:+ exn_message exc) ;;;
          ret true
      end
  end.

(** Lines 334-367: the write of one container's values, from the counters
    [(successful_writes, failed_writes)] to their new values.  The script
    fixes [batch_size = 5000]. *)
Definition write_container (container_name container_id : string) (values : list value)
    (batch_size : nat) (counters : nat * nat) : M (world R) (nat * nat) :=
  let '(successful_writes, failed_writes) := counters in
  if batch_size =? 0 then raise ZeroDivisionError else
  let total_batches := (length values + batch_size - 1) `div` batch_size in
  print ("  Writing data for " +:+ container_name +:+ " (" +:+ str_nat (length values)
         +:+ " points in " +:+ str_nat total_batches +:+ " batches)...") ;;;
  let* write_error :=
    write_batches container_name container_id values batch_size total_batches
                  (range 0 (length values) batch_size) in
  if write_error : bool
  then print ("[X] FAILED data write for " +:+ container_name) ;;;
       ret (successful_writes, failed_writes + 1)
  else print ("[OK] Completed data write for " +:+ container_name) ;;;
       ret (successful_writes + 1, failed_writes).

(** Lines 302-367: the loop over the containers.  The values of a container
    are computed from its name with floating-point arithmetic; [generate]
    stands for that computation. *)
Fixpoint write_containers (generate : string → list value)
    (container_ids : list (string * string)) (batch_size : nat)
    (counters : nat * nat) : M (world R) (nat * nat) :=
  match container_ids with
  | [] => ret counters
  | (container_name, container_id) :: rest =>
      print (String (Ascii.ascii_of_nat 10) ("  Processing " +:+ container_name)) ;;;
      print ("    Container ID: " +:+ container_id) ;;;
      let values := generate container_name in
      let* counters' :=
        write_container container_name container_id values batch_size counters in
      write_containers generate rest batch_size counters'
  end.

(** Lines 299-379: the data phase of use case 2, after the containers are
    created: write every container, print the summary, wait ten seconds for
    the buffer when something was written, and return [container_ids] twice. *)
Definition write_data_phase (generate : string → list value)
    (container_ids : list (string * string)) (batch_size : nat)
  : M (world R) (list (string * string) * list (string * string)) :=
  let* counters := write_containers generate container_ids batch_size (0, 0) in
  let '(successful_writes, failed_writes) := counters in
  print (String (Ascii.ascii_of_nat 10)
           ("Data write summary: " +:+ str_nat successful_writes +:+ " successful, "
            +:+ str_nat failed_writes +:+ " failed")) ;;;
  (if 0 <? successful_writes
   then print (String (Ascii.ascii_of_nat 10)
                 "Waiting 10 seconds for OMF buffer to flush data to archive...") ;;;
        sleep (10 * 1000) ;;;
        print "[OK] Buffer flush wait complete"
   else ret ()) ;;;
  print (String (Ascii.ascii_of_nat 10)
           "[OK] Container creation and data population complete!") ;;;
  print ("    Created " +:+ str_nat (length container_ids) +:+ " OMF containers") ;;;
  ret (container_ids, container_ids).

(** Running a computation from a state with an empty trace. *)
Definition run {A} (c : M (world R) A) (σ : R) : result A * world R :=
  c (mk_world σ []).

End script.

(** The remote calls of a trace with their outcomes, the lines printed,
    and the sleeps. *)
Definition calls_of (tr : list event) : list (call * result value) :=
  omap (λ ev, match ev with EvCall c r => Some (c, r) | _ => None end) tr.
Definition printed (tr : list event) : list string :=
  omap (λ ev, match ev with EvPrint l => Some l | _ => None end) tr.
Definition sleeps_of (tr : list event) : list nat :=
  omap (λ ev, match ev with EvSleep ms => Some ms | _ => None end) tr.

(** The value lists of the data messages sent in a trace, in the order of
    the sends. *)
Definition chunks_sent (tr : list event) : list (list value) :=
  omap (λ cr, match cr.1 with
              | OMF_send_time_series_data _ batch_values => Some batch_values
              | _ => None
              end) (calls_of tr).


(** An element whose [Name] is the one looked for, and one with another
    name. *)
Definition is_named (objs : objects) (name : string) (elem : value) : Prop :=
  getitem objs elem "Name" = Return (PyStr name).
Definition is_named_otherwise (objs : objects) (name : string) (elem : value) : Prop :=
  ∃ n, getitem objs elem "Name" = Return n ∧ n ≠ PyStr name.

(** [full_path] of [create_or_get_element]. *)
Definition full_path_of (parent_path name : string) : string :=
  if negb (String.eqb parent_path "") then parent_path +:+ "\" +:+ name else name.

(** The query and the creation [create_or_get_element] issues for its
    arguments. *)
Definition query_of (is_root : bool) (parent_webid name : string) : call :=
  if is_root then AssetDatabase_get_elements parent_webid name
  else Element_get_elements parent_webid name.

Definition creation_of (is_root : bool) (parent_webid name description : string)
  : call :=
  let element_def :=
    PyDict {[ "Name" := PyStr name; "Description" := PyStr description ]} in
  if is_root then AssetDatabase_create_element parent_webid element_def
  else Element_create_element parent_webid element_def.

(** What the first [try] block of [create_or_get_element] finds in the
    outcome of its query: the element, or nothing, also when the query or
    the search raised. *)
Definition found_in (objs : objects) (name : string) (r : result value)
  : option value :=
  match r with
  | Return existing =>
      match lookup_named objs name existing with
      | Return (Some elem) => Some elem
      | _ => None
      end
  | Raise _ => None
  end.

Section sends.
Context {R : Type}.
Variable remote : call → R → result value * R.

(** The sends of the batch loop without its printing: one data message
    per batch index, in order, up to and including the first that raises. *)
Fixpoint deliver (container_id : string) (values : list value) (batch_size : nat)
    (batch_idxs : list nat) (σ : R) : list (call * result value) * R :=
  match batch_idxs with
  | [] => ([], σ)
  | batch_idx :: rest =>
      let c := OMF_send_time_series_data container_id
                 (slice values batch_idx (batch_idx + batch_size)) in
      let '(r, σ1) := remote c σ in
      match r with
      | Return _ =>
          let '(log, σ2) := deliver container_id values batch_size rest σ1 in
          ((c, r) :: log, σ2)
      | Raise _ => ([(c, r)], σ1)
      end
  end.

(** The service fails with [PIWebAPIError] only. *)
Definition raises_only_PIWebAPIError : Prop :=
  ∀ c σ e σ', remote c σ = (Raise e, σ') → is_PIWebAPIError e = true.
End sends.

(** The [write_error] the batch loop ends with, read off the sends it
    made: set when the last one raised [PIWebAPIError]; any other exception
    leaves the loop. *)
Definition loop_result (log : list (call * result value)) : result bool :=
  match last log with
  | Some (_, Raise e) => if is_PIWebAPIError e then Return true else Raise e
  | _ => Return false
  end.

(** The line printed for a batch that raised [PIWebAPIError]. *)
Definition error_line (container_name : string) (batch_size batch_idx : nat)
    (message : string) : string :=
  "  [X] Error writing batch " +:+ str_nat (batch_idx `div` batch_size + 1)
  +:+ " for " +:+ container_name +:+ ": " +:+ message.

End Sandbox.

(** ** Observing a controller call *)

Module Observe.

(** The requests a call adds to the log. *)
Definition issued {A} (c : M (list request) A) (log : list request) : list request :=
  drop (length log) (c log).2.

(** The first of the given time arguments the codec rejects. *)
Definition first_rejected (times : list value) : option value :=
  List.find (λ v, negb (accepted v)) times.

(** A request up to its path. *)
Definition shape (r : request) : http_method * gmap string value * option value :=
  (req_method r, req_params r, req_data r).

(** The shape of a single-stream request with the stream list added. *)
Definition shape_with_web_ids (web_ids : value) (r : request)
  : http_method * gmap string value * option value :=
  (req_method r, <["webId" := web_ids]> (req_params r), req_data r).

End Observe.

(** ** controllers/base.py: the path encoder *)

Module PathCodec.
Import Stdlib.Strings.Ascii.

(** [urllib.parse.quote(path, safe="")] on the UTF-8 bytes of [path]: the
    bytes [A-Z a-z 0-9 _ . - ~] stay, every other byte becomes [%XX] with
    two upper-case hexadecimal digits. *)
Definition always_safe (c : Ascii.ascii) : bool :=
  let n := Ascii.N_of_ascii c in
  ((65 <=? n) && (n <=? 90))%N || ((97 <=? n) && (n <=? 122))%N
  || ((48 <=? n) && (n <=? 57))%N
  || Ascii.eqb c "_"%char || Ascii.eqb c "."%char || Ascii.eqb c "-"%char
  || Ascii.eqb c "~"%char.

Definition hex_digit (n : N) : Ascii.ascii :=
  Ascii.ascii_of_N (if (n <? 10)%N then 48 + n else 55 + n)%N.

Definition percent (c : Ascii.ascii) : string :=
  let n := Ascii.N_of_ascii c in
  String "%"%char (String (hex_digit (n `div` 16)%N) (String (hex_digit (n `mod` 16)%N) "")).

Fixpoint quote (s : string) : string :=
  match s with
  | "" => ""
  | String c rest =>
      (if always_safe c then String c "" else percent c) +:+ quote rest
  end.

(** [BaseController._encode_path] *)
Definition _encode_path (path : string) : string := quote path.

(** [urllib.parse.unquote] on bytes: [%XX] with two hexadecimal digits of
    either case is the byte [XX]; a [%] not followed by two such digits
    stays. *)
Definition hex_value (c : Ascii.ascii) : option N :=
  let n := Ascii.N_of_ascii c in
  if ((48 <=? n) && (n <=? 57))%N then Some (n - 48)%N
  else if ((65 <=? n) && (n <=? 70))%N then Some (n - 55)%N
  else if ((97 <=? n) && (n <=? 102))%N then Some (n - 87)%N
  else None.

Fixpoint unquote (s : string) : string :=
  match s with
  | "" => ""
  | String c rest =>
      if Ascii.eqb c "%"%char then
        match rest with
        | String h (String l rest') =>
            match hex_value h, hex_value l with
            | Some a, Some b => String (Ascii.ascii_of_N (16 * a + b)) (unquote rest')
            | _, _ => String c (unquote rest)
            end
        | _ => String c (unquote rest)
        end
      else String c (unquote rest)
  end.

End PathCodec.

(** ** Concrete services for the examples *)

Module Fixtures.

(** A service that answers every request with an empty update batch. *)
Definition quiet_server : list request → request → result value :=
  λ _ _, Return (PyDict {[ "Items" := PyList []; "LatestMarker" := PyStr "m1" ]}).

(** A base class written in the pattern of [EventFrame]'s own methods, one
    key per inherited field; it shows that what the round trip asks of
    [models/base.py] can be met. *)
Definition base_to_dict (self : Event.EventFrame) (exclude_none : bool)
  : gmap string value :=
  let b := Event.ef_base self in
  Event.set_field "Links" (Event.links b) exclude_none
    (Event.set_field "Path" (Event.path b) exclude_none
      (Event.set_field "Description" (Event.description b) exclude_none
        (Event.set_field "Name" (Event.name b) exclude_none
          (Event.set_field "Id" (Event.id b) exclude_none
            (Event.set_field "WebId" (Event.web_id b) exclude_none ∅))))).

Definition base_from_dict (data : gmap string value) : Event.PIWebAPIObject :=
  Event.mk_PIWebAPIObject (dict_get "WebId" data) (dict_get "Id" data)
    (dict_get "Name" data) (dict_get "Description" data)
    (dict_get "Path" data) (dict_get "Links" data).

(** Classes with none of [get], iteration and subscription: Python names
    the bare class, the text after the last dot of the dotted name. *)
Fixpoint bare_name_from (seen : string) (cls : string) : string :=
  match cls with
  | EmptyString => seen
  | String c rest =>
      if String.eqb (String c "") "." then bare_name_from "" rest
      else bare_name_from (seen +:+ String c "") rest
  end.

Definition bare_name (cls : string) : string := bare_name_from "" cls.

Definition plain_objects : Sandbox.objects :=
  Sandbox.mk_objects
    (λ cls, Raise (OtherError "AttributeError"
                     ("'" +:+ bare_name cls +:+ "' object has no attribute 'get'")))
    (λ cls, Raise (TypeError ("'" +:+ bare_name cls +:+ "' object is not iterable")))
    (λ cls _, Raise (TypeError ("'" +:+ bare_name cls
                                +:+ "' object is not subscriptable"))).

(** An asset service with visibility lag: an element created becomes
    visible to the [lag]-th query after its creation (counting from 0), or
    never when [lag] is [None].  The state is the number of queries served
    since the creation, if there was one. *)
Definition created_element (name : string) : value :=
  PyDict {[ "Name" := PyStr name; "WebId" := PyStr "E0001" ]}.

Definition listing (name : string) (visible : bool) : value :=
  PyDict {[ "Items" := PyList (if visible then [created_element name] else []) ]}.

Definition lagging_af (lag : option nat)
  : Sandbox.call → option nat → result value * option nat :=
  λ c st,
    let query name :=
      match st with
      | None => (Return (listing name false), None)
      | Some n =>
          (Return (listing name (from_option (λ l, l <=? n) false lag)), Some (S n))
      end in
    match c with
    | Sandbox.AssetDatabase_get_elements _ name => query name
    | Sandbox.Element_get_elements _ name => query name
    | Sandbox.AssetDatabase_create_element _ _ => (Return PyNone, Some 0)
    | Sandbox.Element_create_element _ _ => (Return PyNone, Some 0)
    | Sandbox.OMF_send_time_series_data _ _ => (Return PyNone, st)
    end.

(** An ingestion service that rejects the data message number [fail_at]
    (counting from 0) and accepts the others.  The state is the number of
    data messages received. *)
Definition flaky_omf (fail_at : nat) : Sandbox.call → nat → result value * nat :=
  λ c n,
    match c with
    | Sandbox.OMF_send_time_series_data _ _ =>
        (if n =? fail_at then Raise (PIWebAPIError "HTTP 500") else Return PyNone, S n)
    | _ => (Return PyNone, n)
    end.


(** Five records for one container. *)
Definition five_records : list value :=
  (λ i, PyDict {[ "timestamp" := PyStr ("2024-01-15T10:30:0" +:+ str_nat i +:+ "Z");
                  "value" := PyInt (Z.of_nat i) ]}) <$> seq 0 5.

Definition sample_event : Event.EventFrame :=
  Event.mk_EventFrame
    (Event.mk_PIWebAPIObject (PyStr "F1Fm") PyNone (PyStr "Batch 7") PyNone
                             PyNone PyNone)
    PyNone PyNone (PyBool false) PyNone (PyList [PyStr "Downtime"; PyStr "Shift A"])
    (PyStr "2024-01-15T11:00:00Z") (PyBool false) PyNone PyNone PyNone PyNone
    PyNone (PyStr "Major") (PyStr "2024-01-15T10:30:00Z") PyNone.

End Fixtures.

Module MoreFixtures.

(** The base class of [Fixtures], on the inherited fields alone. *)
Definition fields_to_dict (b : Event.PIWebAPIObject) (exclude_none : bool)
  : gmap string value :=
  Event.set_field "Links" (Event.links b) exclude_none
    (Event.set_field "Path" (Event.path b) exclude_none
      (Event.set_field "Description" (Event.description b) exclude_none
        (Event.set_field "Name" (Event.name b) exclude_none
          (Event.set_field "Id" (Event.id b) exclude_none
            (Event.set_field "WebId" (Event.web_id b) exclude_none ∅))))).

Definition category_base_to_dict (self : Event.Category.EventFrameCategory)
    (exclude_none : bool) : gmap string value :=
  fields_to_dict (Event.Category.cat_base self) exclude_none.

Definition sample_category : Event.Category.EventFrameCategory :=
  Event.Category.mk_EventFrameCategory
    (Event.mk_PIWebAPIObject (PyStr "F1C7") PyNone (PyStr "Downtime") PyNone
                             PyNone PyNone)
    PyNone.

(** A response as the service sends it, with an explicit null. *)
Definition sample_response : gmap string value :=
  {[ "WebId" := PyStr "F1Fm"; "Name" := PyStr "Batch 7";
     "Severity" := PyStr "Major"; "EndTime" := PyNone;
     "IsLocked" := PyBool false ]}.

(** An asset service that refuses every creation. *)
Definition readonly_af : Sandbox.call → unit → result value * unit :=
  λ c st,
    match c with
    | Sandbox.AssetDatabase_create_element _ _
    | Sandbox.Element_create_element _ _ => (Raise (PIWebAPIError "HTTP 403"), st)
    | _ => (Return (PyDict {[ "Items" := PyList [] ]}), st)
    end.

End MoreFixtures.

(** * Properties *)

(** ** The batches of use case 2 *)

Section batching_facts.
Import Batching.
Context {A : Type}.
Implicit Types (values : list A) (bs : nat).

Lemma batch_starts_spec values bs :
  batch_starts values bs = (λ k, k * bs) <$> seq 0 (total_batches values bs).
Proof.
  unfold batch_starts, range, total_batches.
  by rewrite Nat.sub_0_r.
Qed.

Lemma length_batches values bs :
  length (batches values bs) = total_batches values bs.
Proof.
  unfold batches. rewrite batch_starts_spec.
  by rewrite !length_fmap, length_seq.
Qed.

Lemma batch_at_length values bs i :
  length (batch_at values bs i) ≤ bs.
Proof.
  unfold batch_at, slice. rewrite length_take. lia.
Qed.

Lemma batch_at_take_drop values bs k :
  batch_at values bs (k * bs) = take bs (drop (k * bs) values).
Proof.
  unfold batch_at, slice. f_equal. lia.
Qed.

(** The first [c] batches are the first [c * bs] records. *)
Lemma concat_batches_prefix values bs c :
  concat (batch_at values bs <$> ((λ k, k * bs) <$> seq 0 c))
  = take (c * bs) values.
Proof.
  induction c as [|c IH]; [done|].
  rewrite seq_S, !fmap_app, concat_app, IH. simpl.
  rewrite app_nil_r, batch_at_take_drop.
  rewrite take_take_drop. f_equal. lia.
Qed.

Lemma total_batches_covers values bs :
  0 < bs → length values ≤ total_batches values bs * bs.
Proof.
  intros Hbs. unfold total_batches.
  pose proof (Nat.div_mod (length values + bs - 1) bs ltac:(lia)) as Hdm.
  pose proof (Nat.mod_upper_bound (length values + bs - 1) bs ltac:(lia)).
  nia.
Qed.

Lemma total_batches_tight values bs k :
  0 < bs → k < total_batches values bs → k * bs < length values.
Proof.
  intros Hbs Hk. unfold total_batches in Hk.
  pose proof (Nat.div_mod (length values + bs - 1) bs ltac:(lia)) as Hdm.
  pose proof (Nat.mod_upper_bound (length values + bs - 1) bs ltac:(lia)).
  nia.
Qed.

Lemma batches_lookup values bs k :
  k < total_batches values bs →
  batches values bs !! k = Some (take bs (drop (k * bs) values)).
Proof.
  intros Hk. unfold batches. rewrite batch_starts_spec.
  rewrite !list_lookup_fmap, lookup_seq_lt by done. simpl.
  by rewrite batch_at_take_drop.
Qed.

(** The slices at the indices of the loop, taken together: their
    concatenation is the list, none is empty or longer than [bs], and the
    [k]-th holds the elements from position [k * bs] on. *)
Lemma batches_are_contiguous values bs :
  0 < bs →
  concat (batches values bs) = values
  ∧ Forall (λ chunk, 0 < length chunk ≤ bs) (batches values bs)
  ∧ (∀ k chunk, batches values bs !! k = Some chunk →
       chunk = take bs (drop (k * bs) values))
  ∧ (∀ a b c d e : A,
       batches [a; b; c; d; e] 2 = [[a; b]; [c; d]; [e]]).
Proof.
  intros Hbs. split_and!.
  - unfold batches. rewrite batch_starts_spec, concat_batches_prefix.
    apply take_ge, total_batches_covers, Hbs.
  - apply Forall_lookup. intros k chunk Hk.
    assert (k < total_batches values bs) as Hlt.
    { rewrite <- length_batches. by eapply lookup_lt_Some. }
    rewrite batches_lookup in Hk by done. injection Hk as <-.
    pose proof (total_batches_tight _ _ _ Hbs Hlt).
    rewrite length_take, length_drop. lia.
  - intros k chunk Hk.
    assert (k < total_batches values bs) as Hlt.
    { rewrite <- length_batches. by eapply lookup_lt_Some. }
    rewrite batches_lookup in Hk by done. by injection Hk as <-.
  - reflexivity.
Qed.

End batching_facts.

(** ** The time codec *)

(** C4. A string is returned as it is, whatever it contains: the keyword
    ["*"], a relative expression, the empty string. *)
Theorem format_time_str_passthrough (s : string) :
  _format_time (PyStr s) = Return (PyStr s).
Proof. reflexivity. Qed.

Example format_time_keywords :
  _format_time (PyStr "*") = Return (PyStr "*")
  ∧ _format_time (PyStr "*-1d") = Return (PyStr "*-1d")
  ∧ _format_time (PyStr "Today") = Return (PyStr "Today")
  ∧ _format_time (PyStr "not a time") = Return (PyStr "not a time")
  ∧ _format_time (PyStr "") = Return (PyStr "").
Proof. by split_and!. Qed.

Lemma format_time_none : _format_time PyNone = Return PyNone.
Proof. reflexivity. Qed.

Lemma format_time_accepted (v : value) :
  accepted v = true → ∃ r, _format_time v = Return r.
Proof. destruct v; simpl; try discriminate; eauto. Qed.

Lemma format_time_rejected (v : value) :
  accepted v = false →
  _format_time v
  = Raise (TypeError ("Time value must be str, datetime, or None, got "
                      +:+ type_repr v)).
Proof. by destruct v. Qed.

Example isoformat_naive :
  isoformat (mk_datetime 2024 1 15 10 30 0 0 None) = "2024-01-15T10:30:00".
Proof. reflexivity. Qed.

Example isoformat_utc :
  isoformat (mk_datetime 2024 1 15 10 30 0 0 (Some 0%Z)) = "2024-01-15T10:30:00+00:00".
Proof. vm_compute. reflexivity. Qed.

Example isoformat_india_micro :
  isoformat (mk_datetime 2024 1 15 10 30 5 250 (Some 19800000000%Z))
  = "2024-01-15T10:30:05.000250+05:30".
Proof. vm_compute. reflexivity. Qed.

Example isoformat_west :
  isoformat (mk_datetime 987 12 31 23 59 59 0 (Some (-28800000000)%Z))
  = "0987-12-31T23:59:59-08:00".
Proof. vm_compute. reflexivity. Qed.

Example isoformat_odd_offset :
  isoformat (mk_datetime 2024 1 15 10 30 0 0 (Some 1172000000%Z))
  = "2024-01-15T10:30:00+00:19:32".
Proof. vm_compute. reflexivity. Qed.

Lemma append_empty_r (s : string) : s +:+ "" = s.
Proof.
  induction s as [|c s IH]; [done|].
  change (String c (s +:+ "") = String c s). by rewrite IH.
Qed.

(** C3, as the code has it.  A datetime is serialized by [isoformat()]
    alone.  A naive value gives the bare [YYYY-MM-DDTHH:MM:SS[.ffffff]]
    with no offset at all: no local zone is looked up or appended.  An
    aware value gives the same text followed by its own offset, formatted
    as it stands ([+HH:MM], with seconds only when it has them). *)
Theorem format_time_datetime :
  (∀ y mo dd h mi s us,
     let d := mk_datetime y mo dd h mi s us None in
     _format_time (PyDatetime d) = Return (PyStr (format_naive d))
     ∧ isoformat d = format_naive d)
  ∧ (∀ d off,
       _format_time (PyDatetime (with_offset d off))
       = Return (PyStr (format_naive d +:+ format_offset (Some off)))).
Proof.
  split.
  - intros. subst d. unfold _format_time, isoformat. simpl utcoffset.
    unfold format_offset. by rewrite append_empty_r.
  - intros [] off. reflexivity.
Qed.

Lemma append_empty_inv (s t : string) : s = s +:+ t → t = "".
Proof.
  induction s as [|c s IH]; [done|].
  change (String c s = String c (s +:+ t) → t = "").
  intros H. injection H as H. auto.
Qed.

Lemma format_offset_nonempty (off : Z) : format_offset (Some off) ≠ "".
Proof. unfold format_offset. by destruct (off <? 0)%Z. Qed.

(** C3, as the claim states it, fails: whatever the caller's local zone
    offset is, a naive datetime is not serialized with it.  At 10:30 on
    15 January 2024 the output is the bare wall-clock text, in a zone one
    hour east of UTC as in any other. *)
Lemma format_time_naive_not_local :
  let d := mk_datetime 2024 1 15 10 30 0 0 None in
  _format_time (PyDatetime d) = Return (PyStr "2024-01-15T10:30:00")
  ∧ isoformat (with_offset d 3600000000) = "2024-01-15T10:30:00+01:00"
  ∧ ¬ (∃ local_offset : Z,
         _format_time (PyDatetime d)
         = Return (PyStr (isoformat (with_offset d local_offset)))).
Proof.
  split_and!; [reflexivity | by vm_compute |].
  intros [off H]. unfold _format_time in H. injection H as H.
  change (isoformat (with_offset ?d off))
    with (format_naive d +:+ format_offset (Some off)) in H.
  change (isoformat ?d) with (format_naive d +:+ "") in H.
  rewrite append_empty_r in H.
  apply append_empty_inv in H. by apply format_offset_nonempty in H.
Qed.

(** ** The stream controllers *)

Section stream_facts.
Import Stream.
Variable respond : list request → request → result value.
Implicit Types (log : list request) (params : gmap string value).

Lemma lookup_set_if_truthy_eq k v params :
  set_if_truthy k v params !! k = if truthy v then Some v else params !! k.
Proof.
  unfold set_if_truthy. destruct (truthy v); [|done]. apply lookup_insert_eq.
Qed.

Lemma lookup_set_if_truthy_ne k k' v params :
  k ≠ k' → set_if_truthy k v params !! k' = params !! k'.
Proof.
  intros Hne. unfold set_if_truthy. destruct (truthy v); [|done].
  by apply lookup_insert_ne.
Qed.

Lemma lift_format_time_rejected {B} (v : value) (k : value → M (list request) B) log :
  accepted v = false →
  bind (lift (_format_time v)) k log
  = (Raise (TypeError ("Time value must be str, datetime, or None, got "
                       +:+ type_repr v)), log).
Proof.
  intros Hv. unfold bind, lift. by rewrite (format_time_rejected v Hv).
Qed.

End stream_facts.

Ltac lookup_params :=
  repeat first
    [ rewrite lookup_set_if_truthy_eq
    | rewrite lookup_set_if_truthy_ne by done
    | rewrite lookup_singleton_eq
    | rewrite lookup_singleton_ne by done
    | rewrite lookup_empty ].

(** C8. A time value that is neither [None], a string nor a datetime makes
    the codec raise [TypeError], Python's error for an argument of the wrong
    kind, with a message that ends in the class of the value received.
    Nothing else happens: the codec touches no state, and a query method
    given such a time raises the same error before any request is issued,
    leaving the request log as it was. *)
Theorem format_time_rejects_other_kinds (v : value) :
  accepted v = false →
  _format_time v
  = Raise (TypeError ("Time value must be str, datetime, or None, got <class '"
                      +:+ type_name v +:+ "'>"))
  ∧ (∀ (log : list request),
       lift (_format_time v) log = (_format_time v, log))
  ∧ (∀ respond web_id selected_fields desired_units log,
       Stream.get_value respond web_id selected_fields v desired_units log
       = (_format_time v, log))
  ∧ (∀ respond web_id end_time boundary_type max_count include_filtered_values
       filter_expression selected_fields time_zone desired_units log,
       Stream.get_recorded respond web_id v end_time boundary_type max_count
         include_filtered_values filter_expression selected_fields time_zone
         desired_units log
       = (_format_time v, log)).
Proof.
  intros Hv. rewrite (format_time_rejected v Hv). split_and!.
  - reflexivity.
  - reflexivity.
  - intros. unfold Stream.get_value. by rewrite lift_format_time_rejected.
  - intros. unfold Stream.get_recorded. by rewrite lift_format_time_rejected.
Qed.

Lemma format_time_rejects_other_kinds_witness :
  _format_time (PyInt 1700000000)
  = Raise (TypeError "Time value must be str, datetime, or None, got <class 'int'>")
  ∧ Stream.get_value Fixtures.quiet_server "W1" PyNone (PyInt 1700000000) PyNone []
    = (Raise (TypeError "Time value must be str, datetime, or None, got <class 'int'>"), []).
Proof.
  pose proof (format_time_rejects_other_kinds (PyInt 1700000000) eq_refl)
    as (H1 & _ & H3 & _).
  split; [exact H1|].
  rewrite (H3 Fixtures.quiet_server "W1" PyNone PyNone []). exact (f_equal (λ r, (r, [])) H1).
Defined.



(** C7, as the code has it.  Each retrieval appends exactly one request to
    the log and returns the service's answer to it.  The single-stream
    retrieval is a GET on [streams/updates/<marker>] and carries no [marker]
    parameter; the stream-set retrieval is a GET on [streamsets/updates] with
    the marker as the [marker] parameter, whatever the marker is.  In both,
    [selectedFields] and [desiredUnits] are sent exactly when the hint is
    truthy: a hint given as the empty string is left out like [None]; no
    other parameter is sent. *)
Theorem retrieve_is_one_round_trip
    (respond : list request → request → result value) (marker : string)
    (selected_fields desired_units : value) (log : list request) :
  (∃ req,
     Stream.retrieve_update respond marker selected_fields desired_units log
     = (respond log req, log ++ [req])
     ∧ req_method req = GET
     ∧ req_path req = "streams/updates/" +:+ marker
     ∧ req_data req = None
     ∧ req_params req !! "selectedFields" = sent_if_truthy selected_fields
     ∧ req_params req !! "desiredUnits" = sent_if_truthy desired_units
     ∧ (∀ k, k ≠ "selectedFields" → k ≠ "desiredUnits" → req_params req !! k = None))
  ∧ (∃ req,
       Stream.retrieve_updates respond marker selected_fields desired_units log
       = (respond log req, log ++ [req])
       ∧ req_method req = GET
       ∧ req_path req = "streamsets/updates"
       ∧ req_data req = None
       ∧ req_params req !! "marker" = Some (PyStr marker)
       ∧ req_params req !! "selectedFields" = sent_if_truthy selected_fields
       ∧ req_params req !! "desiredUnits" = sent_if_truthy desired_units
       ∧ (∀ k, k ≠ "marker" → k ≠ "selectedFields" → k ≠ "desiredUnits" →
            req_params req !! k = None)).
Proof.
  split; (eexists; split; [reflexivity|]); unfold sent_if_truthy; simpl;
    split_and!; try done; try (by lookup_params); intros; by lookup_params.
Qed.

(** C7, as the claim states it, fails: a field selection given as the empty
    string is provided, yet the request carries no [selectedFields]; the same
    holds for the unit hint and for the stream-set retrieval. *)
Lemma retrieve_drops_empty_hint :
  is_none (PyStr "") = false
  ∧ Stream.retrieve_update Fixtures.quiet_server "m1" (PyStr "") (PyStr "") []
    = (Fixtures.quiet_server [] (mk_request GET "streams/updates/m1" ∅ None),
       [mk_request GET "streams/updates/m1" ∅ None])
  ∧ Stream.retrieve_updates Fixtures.quiet_server "m1" (PyStr "") (PyStr "") []
    = (Fixtures.quiet_server [] (mk_request GET "streamsets/updates"
                                   {[ "marker" := PyStr "m1" ]} None),
       [mk_request GET "streamsets/updates" {[ "marker" := PyStr "m1" ]} None]).
Proof. by split_and!. Qed.

(** C5, as the code has it.  [register_updates] validates nothing: for every
    list of stream identities, the empty one included, it issues one POST on
    [streamsets/updates] with the list under [webId], and its outcome is the
    service's answer to that request. *)
Theorem register_updates_always_posts
    (respond : list request → request → result value) (web_ids : list string)
    (selected_fields : value) (log : list request) :
  ∃ req,
    Stream.register_updates respond web_ids selected_fields log
    = (respond log req, log ++ [req])
    ∧ req_method req = POST
    ∧ req_path req = "streamsets/updates"
    ∧ req_data req = None
    ∧ req_params req !! "webId" = Some (PyList (PyStr <$> web_ids))
    ∧ req_params req !! "selectedFields" = sent_if_truthy selected_fields.
Proof.
  eexists; split; [reflexivity|]. unfold sent_if_truthy. simpl.
  split_and!; try done; by lookup_params.
Qed.

(** C5, as the claim states it, fails: registering the empty list raises
    nothing on the client side; the registration request is issued with
    [webId = []] and the service's answer is returned. *)
Lemma register_updates_empty_is_sent :
  Stream.register_updates Fixtures.quiet_server [] PyNone []
  = (Return (PyDict {[ "Items" := PyList []; "LatestMarker" := PyStr "m1" ]}),
     [mk_request POST "streamsets/updates" {[ "webId" := PyList [] ]} None])
  ∧ ¬ (∃ e, Stream.register_updates Fixtures.quiet_server [] PyNone []
            = (Raise e, [])).
Proof.
  split; [reflexivity|]. intros [e H]. discriminate H.
Qed.

(** ** The event-frame model *)

Section event_facts.
Import Event.
Implicit Types (d : gmap string value) (e : EventFrame).

Lemma lookup_set_field_eq k v ex d :
  set_field k v ex d !! k = if negb (is_none v) || negb ex then Some v else d !! k.
Proof.
  unfold set_field. destruct (negb (is_none v) || negb ex); [|done].
  apply lookup_insert_eq.
Qed.

Lemma lookup_set_field_ne k k' v ex d :
  k ≠ k' → set_field k v ex d !! k' = d !! k'.
Proof.
  intros Hne. unfold set_field. destruct (negb (is_none v) || negb ex); [|done].
  by apply lookup_insert_ne.
Qed.

Lemma dict_get_set_field k v ex d :
  d !! k = None → dict_get k (set_field k v ex d) = v.
Proof.
  intros Hd. unfold dict_get. rewrite lookup_set_field_eq, Hd.
  by destruct v, ex.
Qed.

Lemma dict_get_set_field_ne k k' v ex d :
  k ≠ k' → dict_get k' (set_field k v ex d) = dict_get k' d.
Proof. intros Hne. unfold dict_get. by rewrite lookup_set_field_ne. Qed.

Variable super_to_dict : EventFrame → bool → gmap string value.
Variable PIWebAPIObject_from_dict : gmap string value → PIWebAPIObject.

(** What the round trip needs of the base class: it writes none of the
    event-frame keys, does not read them, and round-trips its own fields. *)
Hypothesis super_keys_apart :
  ∀ e ex k, k ∈ event_keys → super_to_dict e ex !! k = None.
Hypothesis base_reads_apart :
  ∀ d k v, k ∈ event_keys →
    PIWebAPIObject_from_dict (<[k := v]> d) = PIWebAPIObject_from_dict d.
Hypothesis base_round_trip :
  ∀ e ex, PIWebAPIObject_from_dict (super_to_dict e ex) = ef_base e.

Lemma base_reads_set_field k v ex d :
  k ∈ event_keys →
  PIWebAPIObject_from_dict (set_field k v ex d) = PIWebAPIObject_from_dict d.
Proof.
  intros Hk. unfold set_field. destruct (negb (is_none v) || negb ex); [|done].
  by apply base_reads_apart.
Qed.

Local Ltac event_key :=
  unfold event_keys, event_fields; simpl;
  repeat first [ apply list_elem_of_here | apply list_elem_of_further ].

Lemma to_dict_lookup e ex k f :
  (k, f) ∈ event_fields →
  to_dict super_to_dict e ex !! k
  = if negb (is_none (f e)) || negb ex then Some (f e) else None.
Proof.
  intros Hkf. unfold event_fields in Hkf.
  repeat (apply elem_of_cons in Hkf as [[= -> ->]|Hkf];
          [ unfold to_dict;
            repeat (rewrite lookup_set_field_ne by done);
            rewrite lookup_set_field_eq;
            repeat (rewrite lookup_set_field_ne by done);
            rewrite super_keys_apart by event_key; reflexivity |]).
  by apply elem_of_nil in Hkf.
Qed.

Lemma dict_get_to_dict e ex k f :
  (k, f) ∈ event_fields → dict_get k (to_dict super_to_dict e ex) = f e.
Proof.
  intros Hkf. unfold dict_get. rewrite (to_dict_lookup e ex k f Hkf).
  by destruct (f e), ex.
Qed.

Lemma base_of_to_dict e ex :
  PIWebAPIObject_from_dict (to_dict super_to_dict e ex) = ef_base e.
Proof.
  unfold to_dict.
  repeat (rewrite base_reads_set_field by event_key).
  apply base_round_trip.
Qed.

(** C9. [from_dict(to_dict(e))] is [e], with [exclude_none] true (the
    default) as with false, given a base class that keeps to its own keys and
    round-trips its own fields.  With [exclude_none] true, each of the fifteen
    event-frame keys is absent from the dictionary when its field is [None]
    and holds the field's value otherwise; [from_dict] reads every field
    back as it was. *)
Theorem event_frame_round_trip e :
  from_dict PIWebAPIObject_from_dict (to_dict super_to_dict e true) = e
  ∧ from_dict PIWebAPIObject_from_dict (to_dict super_to_dict e false) = e
  ∧ (∀ k f, (k, f) ∈ event_fields →
       to_dict super_to_dict e true !! k
       = if is_none (f e) then None else Some (f e))
  ∧ (∀ k f, (k, f) ∈ event_fields →
       dict_get k (to_dict super_to_dict e true) = f e).
Proof.
  assert (∀ ex, from_dict PIWebAPIObject_from_dict (to_dict super_to_dict e ex) = e)
    as Hrt.
  { intros ex. unfold from_dict. rewrite base_of_to_dict.
    rewrite !(dict_get_to_dict e ex _ _) by
      (unfold event_fields;
       repeat first [ apply list_elem_of_here | apply list_elem_of_further ]).
    by destruct e as [[] ?]. }
  split_and!; [apply Hrt | apply Hrt | |].
  - intros k f Hkf. rewrite (to_dict_lookup e true k f Hkf).
    by destruct (is_none (f e)).
  - intros k f Hkf. by apply dict_get_to_dict.
Qed.

End event_facts.

Lemma base_to_dict_keys_apart e ex k :
  k ∈ Event.event_keys → Fixtures.base_to_dict e ex !! k = None.
Proof.
  intros Hk. unfold Event.event_keys, Event.event_fields in Hk. simpl in Hk.
  repeat (apply elem_of_cons in Hk as [->|Hk];
          [ unfold Fixtures.base_to_dict;
            repeat (rewrite lookup_set_field_ne by done); apply lookup_empty |]).
  by apply elem_of_nil in Hk.
Qed.

Lemma base_from_dict_reads_apart (d : gmap string value) k v :
  k ∈ Event.event_keys →
  Fixtures.base_from_dict (<[k := v]> d) = Fixtures.base_from_dict d.
Proof.
  intros Hk. unfold Event.event_keys, Event.event_fields in Hk. simpl in Hk.
  repeat (apply elem_of_cons in Hk as [->|Hk];
          [ unfold Fixtures.base_from_dict, dict_get;
            by repeat (rewrite lookup_insert_ne by done) |]).
  by apply elem_of_nil in Hk.
Qed.

Lemma base_fixture_round_trip e ex :
  Fixtures.base_from_dict (Fixtures.base_to_dict e ex) = Event.ef_base e.
Proof.
  unfold Fixtures.base_from_dict, Fixtures.base_to_dict.
  destruct e as [[w i n de p l] ?]. simpl. f_equal.
  all: repeat (rewrite dict_get_set_field_ne by done).
  all: rewrite dict_get_set_field;
         [ reflexivity
         | repeat (rewrite lookup_set_field_ne by done); apply lookup_empty ].
Qed.

Lemma event_frame_round_trip_witness :
  Event.from_dict Fixtures.base_from_dict
    (Event.to_dict Fixtures.base_to_dict Fixtures.sample_event true)
  = Fixtures.sample_event
  ∧ Event.to_dict Fixtures.base_to_dict Fixtures.sample_event true !! "Severity"
    = Some (PyStr "Major")
  ∧ Event.to_dict Fixtures.base_to_dict Fixtures.sample_event true !! "TemplateName"
    = None.
Proof.
  pose proof (event_frame_round_trip Fixtures.base_to_dict Fixtures.base_from_dict
                base_to_dict_keys_apart base_from_dict_reads_apart
                base_fixture_round_trip Fixtures.sample_event) as (H1 & _ & H3 & _).
  split_and!.
  - exact H1.
  - apply (H3 "Severity" Event.severity).
    unfold Event.event_fields.
    repeat first [ apply list_elem_of_here | apply list_elem_of_further ].
  - apply (H3 "TemplateName" Event.template_name).
    unfold Event.event_fields.
    repeat first [ apply list_elem_of_here | apply list_elem_of_further ].
Defined.

(** ** The hierarchy helper of use case 1 *)

Section hierarchy_facts.
Import Sandbox.
Context {R : Type}.
Variable remote : call → R → result value * R.
Variable objs : objects.

(** Whatever the service does, one call of [create_or_get_element] makes at
    most three remote calls and sleeps at most once, for half a second. *)
Lemma create_or_get_element_bounded parent_webid name description parent_path
    is_root (σ : R) :
  let tr := trace (run (create_or_get_element remote objs parent_webid name
                          description parent_path is_root) σ).2 in
  length (calls_of tr) ≤ 3 ∧ (sleeps_of tr = [] ∨ sleeps_of tr = [500]).
Proof.
  unfold run, create_or_get_element, get_elements, create_element, try_except,
    bind, lift, invoke, print, sleep, modify, ret, raise.
  simpl.
  repeat (case_match; simplify_eq/=); rewrite ?omap_app; simpl;
    auto with lia.
Qed.

(** C6, as the code has it.  When the first query does not find the
    node, the creation succeeds and the query after it still does not show
    the node, [create_or_get_element] raises the plain
    [Exception("Failed to create <name>")].  It has then queried again
    exactly once, after one fixed sleep of half a second: there is no retry
    loop and no attempt-count or delay parameter.  In every case the call
    makes at most three remote calls and sleeps at most once, so it never
    waits without bound. *)
Theorem create_or_get_element_gives_up parent_webid name description parent_path
    is_root (σ σ1 σ2 σ3 : R) (r1 : result value) (created listed : value) :
  remote (query_of is_root parent_webid name) σ = (r1, σ1) →
  found_in objs name r1 = None →
  remote (creation_of is_root parent_webid name description) σ1
    = (Return created, σ2) →
  remote (query_of is_root parent_webid name) σ2 = (Return listed, σ3) →
  lookup_named objs name listed = Return None →
  run (create_or_get_element remote objs parent_webid name description
         parent_path is_root) σ
  = (Raise (Exception ("Failed to create " +:+ name)),
     mk_world σ3
       [ EvCall (query_of is_root parent_webid name) r1;
         EvCall (creation_of is_root parent_webid name description)
                (Return created);
         EvSleep 500;
         EvCall (query_of is_root parent_webid name) (Return listed) ])
  ∧ (∀ σ',
       let tr := trace (run (create_or_get_element remote objs parent_webid name
                               description parent_path is_root) σ').2 in
       length (calls_of tr) ≤ 3 ∧ (sleeps_of tr = [] ∨ sleeps_of tr = [500])).
Proof.
  intros Hq1 Hnone Hc Hq2 Hlisted. split.
  - unfold query_of, creation_of in *.
    unfold run, create_or_get_element, get_elements, create_element, try_except,
      bind, lift, invoke, print, sleep, modify, ret, raise.
    simpl. rewrite Hq1. unfold found_in in Hnone.
    destruct r1 as [existing|e]; simpl.
    + destruct (lookup_named objs name existing) as [[elem|]|e]; simpl;
        [discriminate Hnone | |];
        rewrite Hc; simpl; rewrite Hq2; simpl; by rewrite Hlisted.
    + rewrite Hc; simpl; rewrite Hq2; simpl; by rewrite Hlisted.
  - intros σ'. apply create_or_get_element_bounded.
Qed.

End hierarchy_facts.

Lemma create_or_get_element_gives_up_witness :
  Sandbox.run (Sandbox.create_or_get_element (Fixtures.lagging_af None)
                 Fixtures.plain_objects
                 "D0001" "Model" "Model container" "" false) None
  = (Raise (Exception "Failed to create Model"),
     Sandbox.mk_world (Some 1)
       [ Sandbox.EvCall (Sandbox.Element_get_elements "D0001" "Model")
           (Return (Fixtures.listing "Model" false));
         Sandbox.EvCall
           (Sandbox.Element_create_element "D0001"
              (PyDict {[ "Name" := PyStr "Model";
                         "Description" := PyStr "Model container" ]}))
           (Return PyNone);
         Sandbox.EvSleep 500;
         Sandbox.EvCall (Sandbox.Element_get_elements "D0001" "Model")
           (Return (Fixtures.listing "Model" false)) ]).
Proof.
  apply (create_or_get_element_gives_up (Fixtures.lagging_af None)
           Fixtures.plain_objects
           "D0001" "Model" "Model container" "" false
           None None (Some 0) (Some 1)
           (Return (Fixtures.listing "Model" false)) PyNone
           (Fixtures.listing "Model" false));
    reflexivity.
Defined.

(** C6, as the claim states it, fails.  With a node that never becomes
    visible the call ends in the generic [Exception], not in a timeout
    error, after a single re-query.  With a node that would be visible to
    the second query after its creation the call fails all the same: one
    re-query is all there is. *)
Lemma create_or_get_element_no_timeout_no_retry :
  let outcome lag :=
    Sandbox.run (Sandbox.create_or_get_element (Fixtures.lagging_af lag)
                   Fixtures.plain_objects
                   "D0001" "Model" "Model container" "" false) None in
  (outcome None).1 = Raise (Exception "Failed to create Model")
  ∧ Sandbox.exn_class (Exception "Failed to create Model") = "Exception"
  ∧ Sandbox.exn_class (Exception "Failed to create Model") ≠ "TimeoutError"
  ∧ length (Sandbox.calls_of (Sandbox.trace (outcome None).2)) = 3
  ∧ Sandbox.sleeps_of (Sandbox.trace (outcome None).2) = [500]
  ∧ (outcome (Some 1)).1 = Raise (Exception "Failed to create Model")
  ∧ (outcome (Some 0)).1 = Return (Fixtures.created_element "Model").
Proof. by split_and!. Qed.

(** ** The batched write of use case 2 *)

Section write_facts.
Import Sandbox.
Context {R : Type}.
Variable remote : call → R → result value * R.
Variables (container_name container_id : string) (values : list value).
Variables (batch_size total : nat).

Local Abbreviation sendc i :=
  (OMF_send_time_series_data container_id (slice values i (i + batch_size))).
Local Abbreviation deliver' := (deliver remote container_id values batch_size).
Local Abbreviation write_batches' :=
  (write_batches remote container_name container_id values batch_size total).

Lemma calls_of_app (t1 t2 : list event) :
  calls_of (t1 ++ t2) = calls_of t1 ++ calls_of t2.
Proof. apply omap_app. Qed.

Lemma sleeps_of_app (t1 t2 : list event) :
  sleeps_of (t1 ++ t2) = sleeps_of t1 ++ sleeps_of t2.
Proof. apply omap_app. Qed.

Lemma printed_app (t1 t2 : list event) :
  printed (t1 ++ t2) = printed t1 ++ printed t2.
Proof. apply omap_app. Qed.

Lemma calls_of_prints (out : list string) : calls_of (EvPrint <$> out) = [].
Proof. induction out as [|l out IH]; [done|exact IH]. Qed.

Lemma sleeps_of_prints (out : list string) : sleeps_of (EvPrint <$> out) = [].
Proof. induction out as [|l out IH]; [done|exact IH]. Qed.

Lemma printed_prints (out : list string) : printed (EvPrint <$> out) = out.
Proof. induction out as [|l out IH]; [done|exact (f_equal (cons l) IH)]. Qed.

Lemma deliver_attempts idxs σ :
  (deliver' idxs σ).1.*1
  = (λ i, sendc i) <$> take (length (deliver' idxs σ).1) idxs.
Proof.
  revert σ. induction idxs as [|i rest IH]; intros σ; [done|].
  simpl. destruct (remote _ σ) as [[v|e] σ1]; [|done].
  specialize (IH σ1). destruct (deliver' rest σ1) as [log σ2].
  simpl in *. by f_equal.
Qed.


Lemma deliver_complete idxs σ :
  (∀ j c e, (deliver' idxs σ).1 !! j ≠ Some (c, Raise e)) →
  length (deliver' idxs σ).1 = length idxs.
Proof.
  revert σ. induction idxs as [|i rest IH]; intros σ; [done|].
  simpl. destruct (remote _ σ) as [[v|e'] σ1].
  - specialize (IH σ1). destruct (deliver' rest σ1) as [log σ2]. simpl in *.
    intros H. f_equal. apply IH. intros j c e Hj. by apply (H (S j) c e).
  - intros H. by destruct (H 0 (sendc i) e').
Qed.

(** What one run of the loop does, in terms of its sends. *)
Lemma write_batches_log idxs w res w' :
  write_batches' idxs w = (res, w') →
  remote_state w' = (deliver' idxs (remote_state w)).2
  ∧ calls_of (trace w') = calls_of (trace w) ++ (deliver' idxs (remote_state w)).1
  ∧ sleeps_of (trace w') = sleeps_of (trace w)
  ∧ res = loop_result (deliver' idxs (remote_state w)).1
  ∧ ∃ lines,
      printed (trace w') = printed (trace w) ++ lines
      ∧ ∀ c msg,
          last (deliver' idxs (remote_state w)).1
            = Some (c, Raise (PIWebAPIError msg)) →
          ∃ pre i,
            idxs !! pred (length (deliver' idxs (remote_state w)).1) = Some i
            ∧ lines = pre ++ [error_line container_name batch_size i msg].
Proof.
  revert w res w'. induction idxs as [|i rest IH]; intros w res w'.
  { intros [= <- <-]. split_and!; try done; [by rewrite app_nil_r|].
    exists []. split; [by rewrite app_nil_r|]. intros c msg [=]. }
  cbn [write_batches deliver]. unfold bind at 1, try_except, bind at 1, invoke.
  destruct (remote _ (remote_state w)) as [[v|e] σ1] eqn:Hr.
  - (* the batch was delivered *)
    set (c := sendc i).
    set (tail := if _ : bool then _ else _).
    assert (∃ out, tail (mk_world σ1 (trace w ++ [EvCall c (Return v)]))
              = (Return (),
                 mk_world σ1 ((trace w ++ [EvCall c (Return v)]) ++ (EvPrint <$> out))))
      as [out Htail].
    { subst tail. destruct (_ || _).
      - by eexists [_].
      - exists []. unfold ret. simpl. by rewrite app_nil_r. }
    unfold bind at 1. rewrite Htail. unfold bind at 1, ret at 1.
    intros Hrest.
    apply IH in Hrest as (Hσ & Hcalls & Hsleeps & Hres & lines & Hlines & Herr).
    cbn [remote_state trace] in Hσ, Hcalls, Hsleeps, Hres, Hlines, Herr.
    destruct (deliver' rest σ1) as [log σ2] eqn:Hd.
    cbn [fst snd] in *.
    pose proof (calls_of_prints out) as Hco.
    pose proof (sleeps_of_prints out) as Hso.
    pose proof (printed_prints out) as Hpo.
    rewrite !calls_of_app, Hco in Hcalls.
    rewrite !sleeps_of_app, Hso in Hsleeps.
    rewrite !printed_app, Hpo in Hlines.
    change (calls_of [EvCall c (Return v)]) with [(c, Return v)] in Hcalls.
    change (sleeps_of [EvCall c (Return v)]) with (@nil nat) in Hsleeps.
    change (printed [EvCall c (Return v)]) with (@nil string) in Hlines.
    rewrite ?app_nil_r in Hcalls. rewrite ?app_nil_r in Hsleeps.
    rewrite ?app_nil_r in Hlines.
    split_and!; [done| by rewrite Hcalls, <- app_assoc |done| |].
    + rewrite Hres. unfold loop_result. rewrite last_cons.
      by destruct (last log) as [[? []]|].
    + exists (out ++ lines). split; [by rewrite Hlines, <- app_assoc|].
      intros c' msg Hlast. rewrite last_cons in Hlast.
      destruct (last log) as [y|] eqn:Hl; [|by injection Hlast].
      injection Hlast as ->.
      destruct (Herr c' msg eq_refl) as (pre & i' & Hi' & ->).
      exists (out ++ pre), i'. split; [|by rewrite <- app_assoc].
      destruct log as [|x log]; [done|]. done.
  - (* the batch raised *)
    destruct (is_PIWebAPIError e) eqn:He.
    + destruct e as [| | |msg| |]; try discriminate He.
      unfold ret at 1, bind at 1, print, modify, ret. simpl.
      intros [= <- <-]. cbn [remote_state trace fst snd].
      rewrite !calls_of_app, !sleeps_of_app, !printed_app.
      cbn [calls_of sleeps_of printed omap list_omap].
      rewrite !app_nil_r.
      split_and!; try done.
      eexists [_]. split; [done|].
      intros c msg' [= <- <-]. by exists [], i.
    + intros [= <- <-]. cbn [remote_state trace fst snd].
      rewrite !calls_of_app, !sleeps_of_app, !printed_app.
      cbn [calls_of sleeps_of printed omap list_omap].
      rewrite ?app_nil_r.
      split_and!; try done.
      * unfold loop_result. simpl. by rewrite He.
      * exists []. split; [by rewrite app_nil_r|].
        intros c msg [= <- ->]. discriminate He.
Qed.

End write_facts.


(** X22. When no send raises, the write of a container sends every batch of
    [Batching.batches], in order, and counts the container as written. *)
Lemma write_container_completes {R : Type}
    (remote : Sandbox.call → R → result value * R)
    (container_name container_id : string) (values : list value)
    (batch_size : nat) (σ : R) (successful_writes failed_writes : nat)
    (res : result (nat * nat)) (w : Sandbox.world R) :
  0 < batch_size →
  Sandbox.run (Sandbox.write_container remote container_name container_id values
                 batch_size (successful_writes, failed_writes)) σ = (res, w) →
  (∀ j c e, Sandbox.calls_of (Sandbox.trace w) !! j ≠ Some (c, Raise e)) →
  res = Return (successful_writes + 1, failed_writes)
  ∧ (Sandbox.calls_of (Sandbox.trace w)).*1
    = Sandbox.OMF_send_time_series_data container_id
        <$> Batching.batches values batch_size.
Proof.
  intros Hbs Hrun Hok.
  unfold Sandbox.run, Sandbox.write_container in Hrun.
  destruct (Nat.eqb_spec batch_size 0) as [->|_]; [lia|].
  unfold bind at 1, Sandbox.print at 1, modify in Hrun. unfold bind at 1 in Hrun.
  cbn [Sandbox.remote_state Sandbox.trace app] in Hrun.
  set (total := (length values + batch_size - 1) `div` batch_size) in *.
  set (idxs := range 0 (length values) batch_size) in *.
  destruct (Sandbox.write_batches remote container_name container_id values
              batch_size total idxs _) as [r1 w1] eqn:Hloop.
  apply write_batches_log in Hloop as (_ & Hcalls & _ & Hres & _).
  change (Sandbox.calls_of (Sandbox.trace (Sandbox.mk_world σ _)))
    with (@nil (Sandbox.call * result value)) in Hcalls.
  cbn [Sandbox.remote_state Sandbox.trace app] in Hcalls, Hres.
  set (log := (Sandbox.deliver remote container_id values batch_size idxs σ).1) in *.
  assert (Sandbox.calls_of (Sandbox.trace w) = log) as Hw.
  { destruct r1 as [[]|e1]; injection Hrun as <- <-;
      cbn [Sandbox.trace]; rewrite ?calls_of_app; cbn; by rewrite ?app_nil_r. }
  rewrite Hw in *. clear Hw.
  assert (r1 = Return false) as ->.
  { rewrite Hres. unfold Sandbox.loop_result. rewrite last_lookup.
    destruct (log !! pred (length log)) as [[c [v|e]]|] eqn:Hl; try done.
    by destruct (Hok _ _ _ Hl). }
  injection Hrun as <- _. split; [done|].
  pose proof (deliver_attempts remote container_id values batch_size idxs σ) as Hatt.
  pose proof (deliver_complete remote container_id values batch_size idxs σ Hok)
    as Hlen.
  fold log in Hatt, Hlen. rewrite Hlen, firstn_all in Hatt. rewrite Hatt.
  unfold Batching.batches, Batching.batch_starts, Batching.batch_at.
  fold idxs. by rewrite <- list_fmap_compose.
Qed.



(** ** The path encoder *)

Section path_facts.
Import Stdlib.Strings.Ascii.

Lemma percent_decodes (c : Ascii.ascii) (rest : string) :
  PathCodec.unquote (PathCodec.percent c +:+ rest) = String c (PathCodec.unquote rest).
Proof.
  destruct c as [[] [] [] [] [] [] [] []]; reflexivity.
Qed.

Lemma safe_is_not_percent (c : Ascii.ascii) :
  PathCodec.always_safe c = true → Ascii.eqb c "%"%char = false.
Proof.
  destruct c as [[] [] [] [] [] [] [] []]; (reflexivity || discriminate).
Qed.

(** X1. Decoding an encoded path gives the path back, so two different
    paths never encode to the same text. *)
Theorem encode_path_round_trip :
  (∀ path, PathCodec.unquote (PathCodec._encode_path path) = path)
  ∧ (∀ p1 p2, PathCodec._encode_path p1 = PathCodec._encode_path p2 → p1 = p2).
Proof.
  assert (∀ path, PathCodec.unquote (PathCodec._encode_path path) = path) as Hrt.
  { unfold PathCodec._encode_path.
    induction path as [|c rest IH]; [done|].
    cbn [PathCodec.quote]. destruct (PathCodec.always_safe c) eqn:Hc.
    - change (String c "" +:+ ?t) with (String c t).
      cbn [PathCodec.unquote]. rewrite (safe_is_not_percent c Hc). by rewrite IH.
    - by rewrite percent_decodes, IH. }
  split; [exact Hrt|].
  intros p1 p2 Heq. rewrite <- (Hrt p1), <- (Hrt p2). by rewrite Heq.
Qed.

Lemma chars_append (s t : string) :
  String.list_ascii_of_string (s +:+ t)
  = String.list_ascii_of_string s ++ String.list_ascii_of_string t.
Proof.
  induction s as [|c s IH]; [done|].
  change (String c s +:+ t) with (String c (s +:+ t)). simpl. by rewrite IH.
Qed.

Lemma length_append (s t : string) :
  String.length (s +:+ t) = String.length s + String.length t.
Proof.
  induction s as [|c s IH]; [done|].
  change (String c s +:+ t) with (String c (s +:+ t)). simpl. by rewrite IH.
Qed.

Lemma hex_digits_safe (c : ascii) :
  PathCodec.always_safe (PathCodec.hex_digit (N_of_ascii c `div` 16)%N) = true
  ∧ PathCodec.always_safe (PathCodec.hex_digit (N_of_ascii c `mod` 16)%N) = true.
Proof.
  destruct c as [[] [] [] [] [] [] [] []]; split; reflexivity.
Qed.

(** X2. An encoded path consists of unreserved characters and [%] only:
    no path separator, query or fragment mark, space or backslash is
    left in it, whatever the input. *)
Theorem encode_path_alphabet (path : string) :
  Forall (λ c, PathCodec.always_safe c = true ∨ c = "%"%char)
         (String.list_ascii_of_string (PathCodec._encode_path path))
  ∧ Forall (λ sep, sep ∉ String.list_ascii_of_string (PathCodec._encode_path path))
           (String.list_ascii_of_string "/?#&=+ \:@").
Proof.
  assert (Forall (λ c, PathCodec.always_safe c = true ∨ c = "%"%char)
            (String.list_ascii_of_string (PathCodec._encode_path path))) as Hal.
  { unfold PathCodec._encode_path.
    induction path as [|c rest IH]; [constructor|].
    cbn [PathCodec.quote]. rewrite chars_append. apply Forall_app. split; [|exact IH].
    destruct (PathCodec.always_safe c) eqn:Hc.
    - simpl. apply List.Forall_cons; [by left | apply List.Forall_nil].
    - destruct (hex_digits_safe c) as [Hh Hl].
      unfold PathCodec.percent. cbn [String.list_ascii_of_string].
      repeat (apply List.Forall_cons; [auto|]). apply List.Forall_nil. }
  split; [exact Hal|].
  rewrite Forall_forall in Hal.
  cbn [String.list_ascii_of_string].
  repeat (apply List.Forall_cons;
          [ intros Hin; destruct (Hal _ Hin) as [Hs|Hp]; discriminate |]).
  apply List.Forall_nil.
Qed.

Lemma quote_length (path : string) :
  String.length path ≤ String.length (PathCodec.quote path)
  ∧ String.length (PathCodec.quote path) ≤ 3 * String.length path.
Proof.
  induction path as [|c rest [IH1 IH2]]; [simpl; lia|].
  cbn [PathCodec.quote]. rewrite length_append.
  destruct (PathCodec.always_safe c); simpl; lia.
Qed.

Lemma quote_fixed_point (path : string) :
  PathCodec.quote path = path
  ↔ Forall (λ c, PathCodec.always_safe c = true) (String.list_ascii_of_string path).
Proof.
  induction path as [|c rest IH]; [by split; [constructor|]|].
  cbn [PathCodec.quote]. simpl String.list_ascii_of_string.
  destruct (PathCodec.always_safe c) eqn:Hc.
  - change (String c "" +:+ ?t) with (String c t). split.
    + intros [= Heq]. constructor; [done|]. by apply IH.
    + intros Hall. apply Forall_cons in Hall as [_ Hall]. f_equal. by apply IH.
  - split.
    + intros Heq. exfalso.
      apply (f_equal String.length) in Heq. rewrite length_append in Heq.
      pose proof (quote_length rest) as [Hle _]. simpl in Heq. lia.
    + intros Hall. apply Forall_cons in Hall as [Hc' _]. congruence.
Qed.

(** X3. Lengths in bytes.  A path is given by the bytes of its UTF-8
    encoding, which is what [quote] works on.  The encoded text has at least
    as many characters as the path has bytes and at most three times as
    many: three for each byte, so a character that takes several bytes
    takes three times as many characters.  Encoding leaves the path
    unchanged exactly when every byte of it is an unreserved character. *)
Theorem encode_path_fixed_points (path : string) :
  String.length path ≤ String.length (PathCodec._encode_path path)
  ∧ String.length (PathCodec._encode_path path) ≤ 3 * String.length path
  ∧ (PathCodec._encode_path path = path
     ↔ Forall (λ c, PathCodec.always_safe c = true)
              (String.list_ascii_of_string path)).
Proof.
  unfold PathCodec._encode_path.
  split_and!; [apply quote_length | apply quote_length | apply quote_fixed_point].
Qed.

End path_facts.

(** ** More on the stream controllers *)

Lemma encode_path_examples :
  PathCodec._encode_path "F1AbEfLbwwL8F6EiShvDV-QH70A" = "F1AbEfLbwwL8F6EiShvDV-QH70A"
  ∧ PathCodec._encode_path "a/b c" = "a%2Fb%20c"
  ∧ PathCodec._encode_path "100%" = "100%25".
Proof. by split_and!. Qed.

Lemma set_if_truthy_insert (k k0 : string) (v x : value) (m : gmap string value) :
  k ≠ k0 →
  set_if_truthy k v (<[k0 := x]> m) = <[k0 := x]> (set_if_truthy k v m).
Proof.
  intros Hne. unfold set_if_truthy. destruct (truthy v); [|done].
  by apply insert_insert_ne.
Qed.

Lemma issued_one {A} (r : result A) (req : request) (log : list request) :
  Observe.issued (λ l, (r, l ++ [req])) log = [req].
Proof. unfold Observe.issued. simpl. by rewrite drop_app_length. Qed.

Lemma issued_none {A} (r : result A) (log : list request) :
  Observe.issued (λ l, (r, l)) log = [].
Proof. unfold Observe.issued. simpl. by rewrite drop_all. Qed.

Ltac run_query :=
  unfold Observe.issued, bind, lift, client_get, send;
  repeat match goal with
         | |- context [_format_time ?v] => destruct (_format_time v)
         end;
  cbn [fst snd]; rewrite ?drop_app_length, ?drop_all.

Ltac web_id_first :=
  cbn [fmap list_fmap Observe.shape Observe.shape_with_web_ids
       req_method req_params req_data];
  rewrite <- ?insert_empty;
  repeat (rewrite set_if_truthy_insert by done);
  reflexivity.

(** X4. Every stream-set query sends what the single-stream query of the
    same name sends for the same arguments, with the list of streams added
    under [webId]: the same method, the same other parameters with the same
    values, no body.  When a time argument makes one of them raise before its
    request, so does the other. *)
Theorem stream_set_query_adds_web_id
    (respond respond' : list request → request → result value)
    (web_id : string) (web_ids : value) (log : list request) :
  (∀ selected_fields time desired_units,
     Observe.shape <$> Observe.issued
       (StreamSet.get_values respond' web_ids selected_fields time desired_units) log
     = Observe.shape_with_web_ids web_ids <$> Observe.issued
         (Stream.get_value respond web_id selected_fields time desired_units) log)
  ∧ (∀ start_time end_time boundary_type max_count include_filtered_values
       filter_expression selected_fields time_zone desired_units,
       Observe.shape <$> Observe.issued
         (StreamSet.get_recorded respond' web_ids start_time end_time boundary_type
            max_count include_filtered_values filter_expression selected_fields
            time_zone desired_units) log
       = Observe.shape_with_web_ids web_ids <$> Observe.issued
           (Stream.get_recorded respond web_id start_time end_time boundary_type
              max_count include_filtered_values filter_expression selected_fields
              time_zone desired_units) log)
  ∧ (∀ start_time end_time interval filter_expression include_filtered_values
       selected_fields time_zone desired_units sync_time sync_time_boundary_type,
       Observe.shape <$> Observe.issued
         (StreamSet.get_interpolated respond' web_ids start_time end_time interval
            filter_expression include_filtered_values selected_fields time_zone
            desired_units sync_time sync_time_boundary_type) log
       = Observe.shape_with_web_ids web_ids <$> Observe.issued
           (Stream.get_interpolated respond web_id start_time end_time interval
              filter_expression include_filtered_values selected_fields time_zone
              desired_units sync_time sync_time_boundary_type) log)
  ∧ (∀ start_time end_time intervals selected_fields time_zone desired_units,
       Observe.shape <$> Observe.issued
         (StreamSet.get_plot respond' web_ids start_time end_time intervals
            selected_fields time_zone desired_units) log
       = Observe.shape_with_web_ids web_ids <$> Observe.issued
           (Stream.get_plot respond web_id start_time end_time intervals
              selected_fields time_zone desired_units) log)
  ∧ (∀ start_time end_time summary_type summary_duration calculation_basis time_type
       selected_fields time_zone filter_expression,
       Observe.shape <$> Observe.issued
         (StreamSet.get_summaries respond' web_ids start_time end_time summary_type
            summary_duration calculation_basis time_type selected_fields time_zone
            filter_expression) log
       = Observe.shape_with_web_ids web_ids <$> Observe.issued
           (Stream.get_summary respond web_id start_time end_time summary_type
              summary_duration calculation_basis time_type selected_fields time_zone
              filter_expression) log).
Proof.
  split_and!; intros.
  - unfold StreamSet.get_values, Stream.get_value. run_query; [web_id_first|done].
  - unfold StreamSet.get_recorded, Stream.get_recorded.
    run_query; [web_id_first|done..].
  - unfold StreamSet.get_interpolated, Stream.get_interpolated.
    run_query; [web_id_first|done..].
  - unfold StreamSet.get_plot, Stream.get_plot. run_query; [web_id_first|done..].
  - unfold StreamSet.get_summaries, Stream.get_summary.
    run_query; [web_id_first|done..].
Qed.

Ltac case_time v :=
  let Hv := fresh "Hv" in
  let Hr := fresh "Hr" in
  let r := fresh "r" in
  destruct (accepted v) eqn:Hv;
  [ destruct (format_time_accepted v Hv) as [r Hr]
  | pose proof (format_time_rejected v Hv) as Hr ];
  cbn [negb]; unfold bind at 1, lift at 1; rewrite ?Hr.

(** X5. A query checks its time arguments in the order start, end, sync
    and stops at the first one the codec rejects: it raises the codec's
    [TypeError] for that argument and the request log is left as it was.
    When the codec accepts them all, the query issues exactly one GET on
    its own path. *)
Theorem query_stops_at_first_bad_time
    (respond : list request → request → result value) (web_id : string)
    (log : list request) :
  (∀ selected_fields time desired_units,
     match Observe.first_rejected [time] with
     | Some v =>
         Stream.get_value respond web_id selected_fields time desired_units log
         = (_format_time v, log)
     | None =>
         ∃ req,
           Stream.get_value respond web_id selected_fields time desired_units log
           = (respond log req, log ++ [req])
           ∧ req_method req = GET
           ∧ req_path req = "streams/" +:+ web_id +:+ "/value"
     end)
  ∧ (∀ start_time end_time boundary_type max_count include_filtered_values
       filter_expression selected_fields time_zone desired_units,
       match Observe.first_rejected [start_time; end_time] with
       | Some v =>
           Stream.get_recorded respond web_id start_time end_time boundary_type
             max_count include_filtered_values filter_expression selected_fields
             time_zone desired_units log
           = (_format_time v, log)
       | None =>
           ∃ req,
             Stream.get_recorded respond web_id start_time end_time boundary_type
               max_count include_filtered_values filter_expression selected_fields
               time_zone desired_units log
             = (respond log req, log ++ [req])
             ∧ req_method req = GET
             ∧ req_path req = "streams/" +:+ web_id +:+ "/recorded"
       end)
  ∧ (∀ start_time end_time interval filter_expression include_filtered_values
       selected_fields time_zone desired_units sync_time sync_time_boundary_type,
       match Observe.first_rejected [start_time; end_time; sync_time] with
       | Some v =>
           Stream.get_interpolated respond web_id start_time end_time interval
             filter_expression include_filtered_values selected_fields time_zone
             desired_units sync_time sync_time_boundary_type log
           = (_format_time v, log)
       | None =>
           ∃ req,
             Stream.get_interpolated respond web_id start_time end_time interval
               filter_expression include_filtered_values selected_fields time_zone
               desired_units sync_time sync_time_boundary_type log
             = (respond log req, log ++ [req])
             ∧ req_method req = GET
             ∧ req_path req = "streams/" +:+ web_id +:+ "/interpolated"
       end)
  ∧ (∀ start_time end_time intervals selected_fields time_zone desired_units,
       match Observe.first_rejected [start_time; end_time] with
       | Some v =>
           Stream.get_plot respond web_id start_time end_time intervals
             selected_fields time_zone desired_units log
           = (_format_time v, log)
       | None =>
           ∃ req,
             Stream.get_plot respond web_id start_time end_time intervals
               selected_fields time_zone desired_units log
             = (respond log req, log ++ [req])
             ∧ req_method req = GET
             ∧ req_path req = "streams/" +:+ web_id +:+ "/plot"
       end)
  ∧ (∀ start_time end_time summary_type summary_duration calculation_basis time_type
       selected_fields time_zone filter_expression,
       match Observe.first_rejected [start_time; end_time] with
       | Some v =>
           Stream.get_summary respond web_id start_time end_time summary_type
             summary_duration calculation_basis time_type selected_fields time_zone
             filter_expression log
           = (_format_time v, log)
       | None =>
           ∃ req,
             Stream.get_summary respond web_id start_time end_time summary_type
               summary_duration calculation_basis time_type selected_fields time_zone
               filter_expression log
             = (respond log req, log ++ [req])
             ∧ req_method req = GET
             ∧ req_path req = "streams/" +:+ web_id +:+ "/summary"
       end)
  ∧ (∀ times v,
       Observe.first_rejected times = Some v →
       v ∈ times
       ∧ _format_time v
         = Raise (TypeError ("Time value must be str, datetime, or None, got "
                             +:+ type_repr v))).
Proof.
  split_and!; intros.
  - unfold Observe.first_rejected, Stream.get_value. cbn [List.find].
    case_time time; [by eexists|done].
  - unfold Observe.first_rejected, Stream.get_recorded. cbn [List.find].
    case_time start_time; [|done]. case_time end_time; [by eexists|done].
  - unfold Observe.first_rejected, Stream.get_interpolated. cbn [List.find].
    case_time start_time; [|done]. case_time end_time; [|done].
    case_time sync_time; [by eexists|done].
  - unfold Observe.first_rejected, Stream.get_plot. cbn [List.find].
    case_time start_time; [|done]. case_time end_time; [by eexists|done].
  - unfold Observe.first_rejected, Stream.get_summary. cbn [List.find].
    case_time start_time; [|done]. case_time end_time; [by eexists|done].
  - unfold Observe.first_rejected in *.
    match goal with H : List.find _ _ = Some _ |- _ =>
      apply List.find_some in H as [Hin Hacc] end.
    split; [by apply list_elem_of_In|].
    apply format_time_rejected. by destruct (accepted v).
Qed.

Lemma isoformat_truthy (d : datetime) : truthy (PyStr (isoformat d)) = true.
Proof.
  assert (0 < String.length (isoformat d)) as Hlen.
  { unfold isoformat, format_naive. rewrite !length_append. simpl. lia. }
  simpl. destruct (isoformat d); [simpl in Hlen; lia | done].
Qed.

(** X6. [get_value] sends a datetime [time] in every case, as its
    [isoformat()] text; a string is sent as it is unless it is empty, and
    an empty string is left out like [None]. *)
Theorem get_value_time_parameter
    (respond : list request → request → result value) (web_id : string)
    (selected_fields desired_units : value) (log : list request) :
  (∀ d, ∃ req,
     Stream.get_value respond web_id selected_fields (PyDatetime d) desired_units log
     = (respond log req, log ++ [req])
     ∧ req_params req !! "time" = Some (PyStr (isoformat d)))
  ∧ (∀ s, ∃ req,
       Stream.get_value respond web_id selected_fields (PyStr s) desired_units log
       = (respond log req, log ++ [req])
       ∧ req_params req !! "time"
         = if String.eqb s "" then None else Some (PyStr s))
  ∧ (∃ req,
       Stream.get_value respond web_id selected_fields PyNone desired_units log
       = (respond log req, log ++ [req])
       ∧ req_params req !! "time" = None).
Proof.
  split_and!; intros; unfold Stream.get_value, bind, lift, _format_time;
    (eexists; split; [reflexivity|]); cbn [req_params].
  - lookup_params. by rewrite isoformat_truthy.
  - lookup_params. cbn [truthy]. destruct (String.eqb s ""); [|done].
    cbn [negb]. by lookup_params.
  - by lookup_params.
Qed.

(** X7. The update methods validate nothing and never raise on their
    own: each issues exactly one request whose body is the value given,
    unchanged, and whose outcome is the service's answer.  [update_value]
    is a PUT on the stream's [value], [update_values] a POST on its
    [recorded], both with [bufferOption] and [updateOption] only when
    truthy; the stream-set [update_values] is a PUT on [streamsets/value]
    without parameters. *)
Theorem updates_are_passed_through
    (respond : list request → request → result value) (web_id : string)
    (body buffer_option update_option : value) (log : list request) :
  (∃ req,
     Stream.update_value respond web_id body buffer_option update_option log
     = (respond log req, log ++ [req])
     ∧ req_method req = PUT
     ∧ req_path req = "streams/" +:+ web_id +:+ "/value"
     ∧ req_data req = Some body
     ∧ req_params req !! "bufferOption" = sent_if_truthy buffer_option
     ∧ req_params req !! "updateOption" = sent_if_truthy update_option
     ∧ (∀ k, k ≠ "bufferOption" → k ≠ "updateOption" → req_params req !! k = None))
  ∧ (∃ req,
       Stream.update_values respond web_id body buffer_option update_option log
       = (respond log req, log ++ [req])
       ∧ req_method req = POST
       ∧ req_path req = "streams/" +:+ web_id +:+ "/recorded"
       ∧ req_data req = Some body
       ∧ req_params req !! "bufferOption" = sent_if_truthy buffer_option
       ∧ req_params req !! "updateOption" = sent_if_truthy update_option
       ∧ (∀ k, k ≠ "bufferOption" → k ≠ "updateOption" → req_params req !! k = None))
  ∧ StreamSet.update_values respond body log
    = (respond log (mk_request PUT "streamsets/value" ∅ (Some body)),
       log ++ [mk_request PUT "streamsets/value" ∅ (Some body)]).
Proof.
  split_and!; [| |reflexivity];
    (eexists; split; [reflexivity|]); unfold sent_if_truthy; simpl;
    split_and!; try done; try (by lookup_params); intros; by lookup_params.
Qed.

(** ** More on the event-frame models *)

Section event_more.
Import Event.
Variable super_to_dict : EventFrame → bool → gmap string value.
Variable PIWebAPIObject_from_dict : gmap string value → PIWebAPIObject.

(** X8. [EventFrame.to_dict] writes its own keys last, whatever the base
    class is: a field that is not [None] is always in the dictionary under
    its key with its value, and with [exclude_none] false all fifteen keys are
    present, a [None] field as an explicit [None]. *)
Theorem to_dict_event_keys_win (e : EventFrame) (exclude_none : bool) :
  (∀ k f, (k, f) ∈ event_fields →
     is_none (f e) = false →
     to_dict super_to_dict e exclude_none !! k = Some (f e))
  ∧ (∀ k f, (k, f) ∈ event_fields →
       to_dict super_to_dict e false !! k = Some (f e)).
Proof.
  assert (∀ ex k f, (k, f) ∈ event_fields →
            negb (is_none (f e)) || negb ex = true →
            to_dict super_to_dict e ex !! k = Some (f e)) as Hin.
  { intros ex k f Hkf Hw. unfold event_fields in Hkf.
    repeat (apply elem_of_cons in Hkf as [[= -> ->]|Hkf];
            [ unfold to_dict;
              repeat (rewrite lookup_set_field_ne by done);
              rewrite lookup_set_field_eq; by rewrite Hw |]).
    by apply elem_of_nil in Hkf. }
  split.
  - intros k f Hkf Hn. apply Hin; [done|]. by rewrite Hn.
  - intros k f Hkf. apply Hin; [done|]. by rewrite orb_true_r.
Qed.

End event_more.

Lemma event_field_of_from_dict
    (from : gmap string value → Event.PIWebAPIObject) (d : gmap string value) k f :
  (k, f) ∈ Event.event_fields → f (Event.from_dict from d) = dict_get k d.
Proof.
  intros Hkf. unfold Event.event_fields in Hkf.
  repeat (apply elem_of_cons in Hkf as [[= -> ->]|Hkf]; [reflexivity|]).
  by apply elem_of_nil in Hkf.
Qed.

(** X9. Reading a dictionary into an event frame and writing it back (with
    [exclude_none] true) keeps, under each event-frame key, exactly the
    entry the dictionary had, except that an explicit [None] entry is
    dropped; this needs only a base class that writes none of these keys. *)
Theorem to_dict_from_dict_drops_nulls
    (super_to_dict : Event.EventFrame → bool → gmap string value)
    (from : gmap string value → Event.PIWebAPIObject) (d : gmap string value) :
  (∀ e ex k, k ∈ Event.event_keys → super_to_dict e ex !! k = None) →
  ∀ k f, (k, f) ∈ Event.event_fields →
    Event.to_dict super_to_dict (Event.from_dict from d) true !! k
    = match d !! k with
      | Some PyNone => None
      | entry => entry
      end.
Proof.
  intros Hsuper k f Hkf.
  rewrite (to_dict_lookup super_to_dict Hsuper _ true k f Hkf).
  rewrite (event_field_of_from_dict from d k f Hkf).
  unfold dict_get. by destruct (d !! k) as [[]|].
Qed.

Lemma to_dict_from_dict_drops_nulls_witness :
  let back :=
    Event.to_dict Fixtures.base_to_dict
      (Event.from_dict Fixtures.base_from_dict MoreFixtures.sample_response) true in
  MoreFixtures.sample_response !! "EndTime" = Some PyNone
  ∧ back !! "EndTime" = None
  ∧ back !! "Severity" = Some (PyStr "Major")
  ∧ back !! "IsLocked" = Some (PyBool false).
Proof.
  intros back.
  pose proof (to_dict_from_dict_drops_nulls Fixtures.base_to_dict
                Fixtures.base_from_dict MoreFixtures.sample_response
                base_to_dict_keys_apart) as H.
  split_and!; [done | | |].
  - apply (H "EndTime" Event.end_time). unfold Event.event_fields.
    repeat first [ apply list_elem_of_here | apply list_elem_of_further ].
  - apply (H "Severity" Event.severity). unfold Event.event_fields.
    repeat first [ apply list_elem_of_here | apply list_elem_of_further ].
  - apply (H "IsLocked" Event.is_locked). unfold Event.event_fields.
    repeat first [ apply list_elem_of_here | apply list_elem_of_further ].
Defined.

Section category_facts.
Import Event.
Variable super_to_dict : Category.EventFrameCategory → bool → gmap string value.
Variable PIWebAPIObject_from_dict : gmap string value → PIWebAPIObject.

Hypothesis super_key_apart :
  ∀ c ex, super_to_dict c ex !! "SecurityDescriptor" = None.
Hypothesis base_reads_apart :
  ∀ d v, PIWebAPIObject_from_dict (<["SecurityDescriptor" := v]> d)
         = PIWebAPIObject_from_dict d.
Hypothesis base_round_trip :
  ∀ c ex, PIWebAPIObject_from_dict (super_to_dict c ex) = Category.cat_base c.

(** X10. [EventFrameCategory.from_dict(to_dict(c))] is [c], for either
    value of [exclude_none], given a base class that leaves
    [SecurityDescriptor] alone and round-trips its own fields; a [None]
    security descriptor is absent from the dictionary when [exclude_none] is
    true. *)
Theorem event_frame_category_round_trip (c : Category.EventFrameCategory)
    (exclude_none : bool) :
  Category.from_dict PIWebAPIObject_from_dict
    (Category.to_dict super_to_dict c exclude_none) = c
  ∧ Category.to_dict super_to_dict c true !! "SecurityDescriptor"
    = if is_none (Category.security_descriptor c) then None
      else Some (Category.security_descriptor c).
Proof.
  split.
  - unfold Category.from_dict, Category.to_dict.
    rewrite dict_get_set_field by apply super_key_apart.
    assert (PIWebAPIObject_from_dict
              (set_field "SecurityDescriptor" (Category.security_descriptor c)
                 exclude_none (super_to_dict c exclude_none))
            = Category.cat_base c) as ->.
    { unfold set_field. destruct (_ || _); [rewrite base_reads_apart|];
        apply base_round_trip. }
    by destruct c as [[] ?].
  - unfold Category.to_dict. rewrite lookup_set_field_eq, super_key_apart.
    by destruct (is_none _).
Qed.

End category_facts.

Lemma fields_to_dict_round_trip (b : Event.PIWebAPIObject) ex :
  Fixtures.base_from_dict (MoreFixtures.fields_to_dict b ex) = b.
Proof.
  unfold Fixtures.base_from_dict, MoreFixtures.fields_to_dict.
  destruct b as [w i n de p l]. simpl. f_equal.
  all: repeat (rewrite dict_get_set_field_ne by done).
  all: rewrite dict_get_set_field;
         [ reflexivity
         | repeat (rewrite lookup_set_field_ne by done); apply lookup_empty ].
Qed.

Lemma event_frame_category_round_trip_witness :
  Event.Category.from_dict Fixtures.base_from_dict
    (Event.Category.to_dict MoreFixtures.category_base_to_dict
       MoreFixtures.sample_category true)
  = MoreFixtures.sample_category.
Proof.
  apply (event_frame_category_round_trip MoreFixtures.category_base_to_dict
           Fixtures.base_from_dict).
  - intros c ex. unfold MoreFixtures.category_base_to_dict, MoreFixtures.fields_to_dict.
    repeat (rewrite lookup_set_field_ne by done). apply lookup_empty.
  - intros d v. unfold Fixtures.base_from_dict, dict_get.
    by repeat (rewrite lookup_insert_ne by done).
  - intros c ex. apply fields_to_dict_round_trip.
Defined.

(** ** More on the hierarchy helper *)

Section lookup_facts.
Import Sandbox.
Variable objs : objects.

Lemma eq_str_true (v : value) (s : string) : eq_str v s = true ↔ v = PyStr s.
Proof.
  destruct v; simpl; try (split; [discriminate|by intros [=]]).
  rewrite String.eqb_eq. split; [by intros ->|by intros [= ->]].
Qed.

(** X11. The search of a listing returns the first element, in listing
    order, whose [Name] equals the name, and finds nothing exactly when every
    element has a [Name] and none equals it.  An element without a readable
    [Name] that comes before any match makes the search raise instead. *)
Theorem find_named_first_match (name : string) (items : list value) :
  (∀ elem,
     find_named objs name items = Return (Some elem)
     ↔ ∃ before after,
         items = before ++ elem :: after
         ∧ Forall (is_named_otherwise objs name) before
         ∧ is_named objs name elem)
  ∧ (find_named objs name items = Return None
     ↔ Forall (is_named_otherwise objs name) items)
  ∧ (∀ e,
       find_named objs name items = Raise e
       ↔ ∃ before bad after,
           items = before ++ bad :: after
           ∧ Forall (is_named_otherwise objs name) before
           ∧ getitem objs bad "Name" = Raise e).
Proof.
  induction items as [|x rest (IHsome & IHnone & IHraise)].
  { split_and!.
    - intros elem. split; [done|]. intros (b & a & Heq & _). by destruct b.
    - split; [constructor|done].
    - intros e. split; [done|]. intros (b & bad & a & Heq & _). by destruct b. }
  cbn [find_named].
  destruct (getitem objs x "Name") as [n|ex] eqn:Hx.
  - destruct (eq_str n name) eqn:Hn.
    + apply eq_str_true in Hn as ->. split_and!.
      * intros elem. split.
        -- intros [= <-]. by exists [], rest.
        -- intros (b & a & Heq & Hb & Hel). destruct b as [|y b].
           ++ by injection Heq as -> ->.
           ++ injection Heq as -> ->. apply Forall_cons in Hb as [(n' & Hn' & Hne) _].
              congruence.
      * split; [done|]. intros Hall. apply Forall_cons in Hall as [(n' & Hn' & Hne) _].
        congruence.
      * intros e. split; [done|]. intros (b & bad & a & Heq & Hb & Hbad).
        destruct b as [|y b].
        -- injection Heq as -> ->. congruence.
        -- injection Heq as -> ->. apply Forall_cons in Hb as [(n' & Hn' & Hne) _].
           congruence.
    + assert (is_named_otherwise objs name x) as Hother.
      { exists n. split; [done|]. intros ->. simpl in Hn.
        by rewrite String.eqb_refl in Hn. }
      split_and!.
      * intros elem. rewrite IHsome. split.
        -- intros (b & a & -> & Hb & Hel). exists (x :: b), a.
           split_and!; [done| by constructor |done].
        -- intros (b & a & Heq & Hb & Hel). destruct b as [|y b].
           ++ injection Heq as -> ->. unfold is_named in Hel.
              destruct Hother as (n' & Hn' & Hne). congruence.
           ++ injection Heq as -> ->. apply Forall_cons in Hb as [_ Hb].
              by exists b, a.
      * rewrite IHnone. split; [by constructor|].
        intros Hall. by apply Forall_cons in Hall as [_ ?].
      * intros e. rewrite IHraise. split.
        -- intros (b & bad & a & -> & Hb & Hbad). exists (x :: b), bad, a.
           split_and!; [done| by constructor |done].
        -- intros (b & bad & a & Heq & Hb & Hbad). destruct b as [|y b].
           ++ injection Heq as -> ->. congruence.
           ++ injection Heq as -> ->. apply Forall_cons in Hb as [_ Hb].
              by exists b, bad, a.
  - split_and!.
    + intros elem. split; [done|]. intros (b & a & Heq & Hb & Hel).
      destruct b as [|y b].
      * injection Heq as -> ->. unfold is_named in Hel. congruence.
      * injection Heq as -> ->. apply Forall_cons in Hb as [(n' & Hn' & Hne) _].
        congruence.
    + split; [done|]. intros Hall. apply Forall_cons in Hall as [(n' & Hn' & Hne) _].
      congruence.
    + intros e. split.
      * intros [= <-]. by exists [], x, rest.
      * intros (b & bad & a & Heq & Hb & Hbad). destruct b as [|y b].
        -- injection Heq as -> ->. congruence.
        -- injection Heq as -> ->. apply Forall_cons in Hb as [(n' & Hn' & Hne) _].
           congruence.
Qed.

End lookup_facts.

Section hierarchy_more.
Import Sandbox.
Context {R : Type}.
Variable remote : call → R → result value * R.
Variable objs : objects.

Ltac run_helper :=
  unfold query_of, creation_of, full_path_of in *;
  unfold run, create_or_get_element, get_elements, create_element, try_except,
    bind, lift, invoke, print, sleep, modify, ret, raise;
  cbn [remote_state trace app].

(** X12. When the first query lists an element with the name,
    [create_or_get_element] returns that element after this one remote call:
    it creates nothing, does not sleep, and prints that the path already
    exists. *)
Theorem create_or_get_element_returns_existing parent_webid name description
    parent_path is_root (σ σ1 : R) (existing elem : value) :
  remote (query_of is_root parent_webid name) σ = (Return existing, σ1) →
  lookup_named objs name existing = Return (Some elem) →
  run (create_or_get_element remote objs parent_webid name description
         parent_path is_root) σ
  = (Return elem,
     mk_world σ1
       [ EvCall (query_of is_root parent_webid name) (Return existing);
         EvPrint ("  " +:+ full_path_of parent_path name +:+ " already exists") ]).
Proof.
  intros Hq Hfound. run_helper. rewrite Hq. cbn. by rewrite Hfound.
Qed.

(** X13. When the first lookup finds nothing (also when it raised), the
    creation succeeds and the query after it shows the node,
    [create_or_get_element] returns the node listed: it has queried, created,
    slept half a second once and queried again, in this order. *)
Theorem create_or_get_element_creates parent_webid name description parent_path
    is_root (σ σ1 σ2 σ3 : R) (r1 : result value) (created listed elem : value) :
  remote (query_of is_root parent_webid name) σ = (r1, σ1) →
  found_in objs name r1 = None →
  remote (creation_of is_root parent_webid name description) σ1
    = (Return created, σ2) →
  remote (query_of is_root parent_webid name) σ2 = (Return listed, σ3) →
  lookup_named objs name listed = Return (Some elem) →
  run (create_or_get_element remote objs parent_webid name description
         parent_path is_root) σ
  = (Return elem,
     mk_world σ3
       [ EvCall (query_of is_root parent_webid name) r1;
         EvCall (creation_of is_root parent_webid name description)
                (Return created);
         EvSleep 500;
         EvCall (query_of is_root parent_webid name) (Return listed);
         EvPrint ("  [OK] Created " +:+ full_path_of parent_path name) ]).
Proof.
  intros Hq1 Hnone Hc Hq2 Hlisted. run_helper. rewrite Hq1.
  unfold found_in in Hnone.
  destruct r1 as [existing|e]; cbn;
    [destruct (lookup_named objs name existing) as [[el|]|e]; cbn;
       [discriminate Hnone| |] |];
    rewrite Hc; cbn; rewrite Hq2; cbn; by rewrite Hlisted.
Qed.

(** X14. Only the first lookup swallows errors.  When it finds nothing and
    the creation raises, the exception leaves [create_or_get_element] at
    once, with no sleep and no second query; an exception of the second
    query, or of the search in its listing, leaves it as well. *)
Theorem create_or_get_element_propagates parent_webid name description parent_path
    is_root (σ σ1 : R) (r1 : result value) :
  remote (query_of is_root parent_webid name) σ = (r1, σ1) →
  found_in objs name r1 = None →
  (∀ e σ2,
     remote (creation_of is_root parent_webid name description) σ1 = (Raise e, σ2) →
     run (create_or_get_element remote objs parent_webid name description
            parent_path is_root) σ
     = (Raise e,
        mk_world σ2
          [ EvCall (query_of is_root parent_webid name) r1;
            EvCall (creation_of is_root parent_webid name description) (Raise e) ]))
  ∧ (∀ created σ2 r2 σ3 e,
       remote (creation_of is_root parent_webid name description) σ1
         = (Return created, σ2) →
       remote (query_of is_root parent_webid name) σ2 = (r2, σ3) →
       (r2 = Raise e
        ∨ ∃ listed, r2 = Return listed ∧ lookup_named objs name listed = Raise e) →
       run (create_or_get_element remote objs parent_webid name description
              parent_path is_root) σ
       = (Raise e,
          mk_world σ3
            [ EvCall (query_of is_root parent_webid name) r1;
              EvCall (creation_of is_root parent_webid name description)
                     (Return created);
              EvSleep 500;
              EvCall (query_of is_root parent_webid name) r2 ])).
Proof.
  intros Hq1 Hnone. unfold found_in in Hnone. split.
  - intros e σ2 Hc. run_helper. rewrite Hq1.
    destruct r1 as [existing|e1]; cbn;
      [destruct (lookup_named objs name existing) as [[el|]|e1]; cbn;
         [discriminate Hnone| |] |];
      by rewrite Hc.
  - intros created σ2 r2 σ3 e Hc Hq2 Hr2. run_helper. rewrite Hq1.
    destruct r1 as [existing|e1]; cbn;
      [destruct (lookup_named objs name existing) as [[el|]|e1]; cbn;
         [discriminate Hnone| |] |];
      rewrite Hc; cbn; rewrite Hq2; cbn;
      (destruct Hr2 as [->|(listed & -> & Hl)]; cbn; [done|by rewrite Hl]).
Qed.

End hierarchy_more.

Lemma create_or_get_element_returns_existing_witness :
  Sandbox.run (Sandbox.create_or_get_element (Fixtures.lagging_af (Some 0))
                 Fixtures.plain_objects
                 "D0001" "Model" "Model container" "\\srv\db" false) (Some 0)
  = (Return (Fixtures.created_element "Model"),
     Sandbox.mk_world (Some 1)
       [ Sandbox.EvCall (Sandbox.Element_get_elements "D0001" "Model")
           (Return (Fixtures.listing "Model" true));
         Sandbox.EvPrint "  \\srv\db\Model already exists" ]).
Proof.
  apply (create_or_get_element_returns_existing (Fixtures.lagging_af (Some 0))
           Fixtures.plain_objects
           "D0001" "Model" "Model container" "\\srv\db" false (Some 0) (Some 1)
           (Fixtures.listing "Model" true) (Fixtures.created_element "Model"));
    reflexivity.
Defined.

Lemma create_or_get_element_creates_witness :
  (Sandbox.run (Sandbox.create_or_get_element (Fixtures.lagging_af (Some 0))
                  Fixtures.plain_objects
                  "D0001" "Model" "Model container" "" true) None).1
  = Return (Fixtures.created_element "Model").
Proof.
  exact (f_equal fst
    (create_or_get_element_creates (Fixtures.lagging_af (Some 0))
       Fixtures.plain_objects
       "D0001" "Model" "Model container" "" true None None (Some 0) (Some 1)
       (Return (Fixtures.listing "Model" false)) PyNone
       (Fixtures.listing "Model" true) (Fixtures.created_element "Model")
       eq_refl eq_refl eq_refl eq_refl eq_refl)).
Defined.

Lemma create_or_get_element_propagates_witness :
  Sandbox.run (Sandbox.create_or_get_element MoreFixtures.readonly_af
                 Fixtures.plain_objects
                 "D0001" "Model" "Model container" "" false) ()
  = (Raise (PIWebAPIError "HTTP 403"),
     Sandbox.mk_world ()
       [ Sandbox.EvCall (Sandbox.Element_get_elements "D0001" "Model")
           (Return (PyDict {[ "Items" := PyList [] ]}));
         Sandbox.EvCall
           (Sandbox.Element_create_element "D0001"
              (PyDict {[ "Name" := PyStr "Model";
                         "Description" := PyStr "Model container" ]}))
           (Raise (PIWebAPIError "HTTP 403")) ]).
Proof.
  apply (proj1 (create_or_get_element_propagates MoreFixtures.readonly_af
                  Fixtures.plain_objects
                  "D0001" "Model" "Model container" "" false () ()
                  (Return (PyDict {[ "Items" := PyList [] ]})) eq_refl eq_refl)
               (PIWebAPIError "HTTP 403") () eq_refl).
Defined.

(** ** More on the batched write *)

Section write_more.
Import Sandbox.
Context {R : Type}.
Variable remote : call → R → result value * R.

(** The write of one container from any state, in terms of its sends. *)
Lemma write_container_outcome container_name container_id values batch_size
    (s f : nat) (w w' : world R) (res : result (nat * nat)) :
  0 < batch_size →
  write_container remote container_name container_id values batch_size (s, f) w
    = (res, w') →
  let d := deliver remote container_id values batch_size
             (range 0 (length values) batch_size) (remote_state w) in
  remote_state w' = d.2
  ∧ calls_of (trace w') = calls_of (trace w) ++ d.1
  ∧ sleeps_of (trace w') = sleeps_of (trace w)
  ∧ res = match loop_result d.1 with
          | Return true => Return (s, f + 1)
          | Return false => Return (s + 1, f)
          | Raise e => Raise e
          end.
Proof.
  intros Hbs Hrun d. unfold write_container in Hrun.
  destruct (Nat.eqb_spec batch_size 0) as [->|_]; [lia|].
  unfold bind at 1, print at 1, modify in Hrun. unfold bind at 1 in Hrun.
  cbn [remote_state trace] in Hrun.
  destruct (write_batches remote container_name container_id values batch_size _ _ _)
    as [r1 w1] eqn:Hloop.
  apply write_batches_log in Hloop as (Hσ & Hcalls & Hsleeps & Hres & _).
  cbn [remote_state trace] in Hσ, Hcalls, Hsleeps, Hres.
  rewrite calls_of_app in Hcalls. rewrite sleeps_of_app in Hsleeps.
  change (calls_of [EvPrint _]) with (@nil (call * result value)) in Hcalls.
  change (sleeps_of [EvPrint _]) with (@nil nat) in Hsleeps.
  rewrite app_nil_r in Hcalls. rewrite app_nil_r in Hsleeps.
  fold d in Hσ, Hcalls, Hres. rewrite <- Hres.
  destruct r1 as [[]|e1]; injection Hrun as <- <-; cbn [remote_state trace];
    rewrite ?calls_of_app, ?sleeps_of_app; cbn [calls_of sleeps_of omap list_omap];
    rewrite ?app_nil_r; done.
Qed.

End write_more.

(** ** The chunks of a write *)

(** The chunks sent, read off the sends. *)
Lemma chunks_sent_of_sends (tr : list Sandbox.event) (container_id : string)
    (chunks : list (list value)) :
  (Sandbox.calls_of tr).*1
  = Sandbox.OMF_send_time_series_data container_id <$> chunks →
  Sandbox.chunks_sent tr = chunks.
Proof.
  unfold Sandbox.chunks_sent. generalize (Sandbox.calls_of tr) as calls.
  intros calls. revert chunks.
  induction calls as [|[c r] calls IH]; intros [|chunk chunks] Heq; try done.
  injection Heq as -> Hrest. cbn. f_equal. by apply IH.
Qed.

(** The sends of one write carry the first slices of the loop, in order. *)
Lemma write_container_chunks {R : Type}
    (remote : Sandbox.call → R → result value * R)
    (container_name container_id : string) (values : list value)
    (batch_size : nat) (σ : R) (counters : nat * nat) :
  0 < batch_size →
  let tr := Sandbox.trace
              (Sandbox.run (Sandbox.write_container remote container_name
                              container_id values batch_size counters) σ).2 in
  (Sandbox.calls_of tr).*1
  = Sandbox.OMF_send_time_series_data container_id
      <$> take (length (Sandbox.calls_of tr)) (Batching.batches values batch_size).
Proof.
  intros Hbs tr. subst tr. destruct counters as [s f].
  destruct (Sandbox.run _ σ) as [res w] eqn:Hrun. unfold Sandbox.run in Hrun.
  apply write_container_outcome in Hrun as (_ & Hcalls & _); [|done].
  cbn [Sandbox.remote_state Sandbox.trace] in Hcalls.
  change (Sandbox.calls_of []) with (@nil (Sandbox.call * result value)) in Hcalls.
  cbn [app] in Hcalls. cbn [snd]. rewrite Hcalls.
  rewrite deliver_attempts.
  unfold Batching.batches, Batching.batch_starts, Batching.batch_at.
  by rewrite <- fmap_take, <- list_fmap_compose.
Qed.

(** C1. For every sequence of values and every positive [batch_size], the
    data messages that the write of a container sends carry contiguous
    chunks of the values in their order: the [k]-th message carries the
    records from position [k * batch_size] on, at least one and at most
    [batch_size] of them, so the chunks sent so far always concatenate to
    the first records of the sequence.  When no send raises, the loop runs
    to its end and the chunks sent concatenate to the whole sequence: they
    are a partition of it.  Five records with [batch_size = 2] are sent as
    chunks of sizes 2, 2, 1 in the original order. *)
Theorem write_container_sends_partition {R : Type}
    (remote : Sandbox.call → R → result value * R)
    (container_name container_id : string) (values : list value)
    (batch_size : nat) (σ : R) (counters : nat * nat) :
  0 < batch_size →
  let tr := Sandbox.trace
              (Sandbox.run (Sandbox.write_container remote container_name
                              container_id values batch_size counters) σ).2 in
  let sent := Sandbox.chunks_sent tr in
  (Sandbox.calls_of tr).*1 = Sandbox.OMF_send_time_series_data container_id <$> sent
  ∧ (∀ k chunk,
       sent !! k = Some chunk →
       chunk = take batch_size (drop (k * batch_size) values)
       ∧ 0 < length chunk ≤ batch_size)
  ∧ concat sent = take (length sent * batch_size) values
  ∧ ((∀ j c e, Sandbox.calls_of tr !! j ≠ Some (c, Raise e)) →
       concat sent = values
       ∧ length sent = (length values + batch_size - 1) `div` batch_size
       ∧ (∀ a b c d e,
            values = [a; b; c; d; e] → batch_size = 2 →
            sent = [[a; b]; [c; d]; [e]]
            ∧ length <$> sent = [2; 2; 1])).
Proof.
  intros Hbs tr sent.
  pose proof (write_container_chunks remote container_name container_id values
                batch_size σ counters Hbs) as Hsends.
  fold tr in Hsends.
  set (n := length (Sandbox.calls_of tr)) in *.
  assert (sent = take n (Batching.batches values batch_size)) as Hsent.
  { by eapply chunks_sent_of_sends. }
  destruct (batches_are_contiguous values batch_size Hbs)
    as (Hconcat & Hsizes & Hkth & Hfive).
  split_and!.
  - by rewrite Hsent.
  - intros k chunk Hk. rewrite Hsent in Hk.
    apply lookup_take_Some in Hk as [Hk _]. split; [by apply Hkth|].
    by apply (proj1 (Forall_lookup _ _) Hsizes k).
  - rewrite Hsent. unfold Batching.batches. rewrite batch_starts_spec.
    rewrite <- !fmap_take, take_seq, concat_batches_prefix.
    by rewrite !length_fmap, length_seq.
  - intros Hok.
    assert (n = length (Batching.batches values batch_size)) as Hn.
    { subst n tr. destruct counters as [s f].
      destruct (Sandbox.run _ σ) as [res w] eqn:Hrun. unfold Sandbox.run in Hrun.
      apply write_container_outcome in Hrun as (_ & Hcalls & _); [|done].
      cbn [Sandbox.remote_state Sandbox.trace] in Hcalls.
      change (Sandbox.calls_of []) with (@nil (Sandbox.call * result value))
        in Hcalls.
      cbn [app] in Hcalls. cbn [snd] in Hok |- *. rewrite Hcalls in Hok |- *.
      rewrite (deliver_complete _ _ _ _ _ _ Hok).
      unfold Batching.batches, Batching.batch_starts. by rewrite length_fmap. }
    assert (sent = Batching.batches values batch_size) as Hall.
    { rewrite Hsent, Hn. apply firstn_all. }
    split_and!.
    + by rewrite Hall.
    + by rewrite Hall, length_batches.
    + intros a b c d e -> ->. rewrite Hall. by rewrite Hfive.
Qed.

Lemma write_container_sends_partition_witness :
  let tr :=
    Sandbox.trace
      (Sandbox.run (Sandbox.write_container (Fixtures.flaky_omf 7) "sine1" "M1_sine1"
                      Fixtures.five_records 2 (0, 0)) 0).2 in
  0 < 2
  ∧ concat (Sandbox.chunks_sent tr) = Fixtures.five_records
  ∧ length <$> Sandbox.chunks_sent tr = [2; 2; 1].
Proof.
  intros tr. split; [lia|].
  destruct (write_container_sends_partition (Fixtures.flaky_omf 7) "sine1"
              "M1_sine1" Fixtures.five_records 2 0 (0, 0) ltac:(lia))
    as (_ & _ & _ & Hdone).
  destruct Hdone as (Hconcat & _ & Hfive).
  { intros [|[|[|[|j]]]] c e; vm_compute; discriminate. }
  split; [exact Hconcat|].
  exact (proj2 (Hfive _ _ _ _ _ eq_refl eq_refl)).
Defined.

Section write_edges.
Import Sandbox.
Context {R : Type}.
Variable remote : call → R → result value * R.

Lemma range_empty (step : nat) : 0 < step → range 0 0 step = [].
Proof.
  intros Hs. unfold range. rewrite Nat.div_small by lia. done.
Qed.

Lemma range_starts_at_0 (n step : nat) :
  0 < step → 0 < n → ∃ rest, range 0 n step = 0 :: rest.
Proof.
  intros Hs Hn. unfold range.
  assert (0 < (n - 0 + step - 1) `div` step) as Hc.
  { apply Nat.div_str_pos. lia. }
  destruct ((n - 0 + step - 1) `div` step) as [|c]; [lia|].
  eexists. reflexivity.
Qed.

(** X15. Degenerate writes.  With [batch_size] zero the write of a
    container raises [ZeroDivisionError] before it prints or sends anything.
    With no values it sends nothing, announces 0 points in 0 batches, and
    still counts the container as written. *)
Theorem write_container_degenerate container_name container_id
    (counters : nat * nat) (w : world R) :
  (∀ values,
     write_container remote container_name container_id values 0 counters w
     = (Raise ZeroDivisionError, w))
  ∧ (∀ batch_size, 0 < batch_size →
       write_container remote container_name container_id [] batch_size counters w
       = (Return (counters.1 + 1, counters.2),
          mk_world (remote_state w)
            (trace w ++
             [ EvPrint ("  Writing data for " +:+ container_name
                        +:+ " (0 points in 0 batches)...");
               EvPrint ("[OK] Completed data write for " +:+ container_name) ]))).
Proof.
  destruct counters as [s f]. split.
  - intros values. reflexivity.
  - intros batch_size Hbs. unfold write_container.
    destruct (Nat.eqb_spec batch_size 0) as [->|_]; [lia|].
    cbn [length]. rewrite (range_empty batch_size Hbs).
    rewrite Nat.div_small by lia.
    unfold bind, print, modify, ret. cbn. by rewrite <- app_assoc.
Qed.

Lemma deliver_length container_id values batch_size idxs (σ : R) :
  length (deliver remote container_id values batch_size idxs σ).1 ≤ length idxs.
Proof.
  revert σ. induction idxs as [|i rest IH]; intros σ; [done|].
  simpl. destruct (remote _ σ) as [[v|e'] σ1]; simpl; [|lia].
  specialize (IH σ1). destruct (deliver _ _ _ _ rest σ1) as [log σ2]. simpl in *. lia.
Qed.

Lemma loop_result_cases (log : list (call * result value)) :
  loop_result log = Return false
  ∨ loop_result log = Return true
  ∨ ∃ c e, loop_result log = Raise e ∧ is_PIWebAPIError e = false
           ∧ last log = Some (c, Raise e).
Proof.
  unfold loop_result. destruct (last log) as [[c [v|e]]|]; [by left| |by left].
  destruct (is_PIWebAPIError e) eqn:He; [by right; left|].
  right; right. by exists c, e.
Qed.

(** X16. Whatever the service does, one write of a container sends a
    prefix of its batches, in order and without repeating one, so at most
    [total_batches] data messages; it never sleeps; and it ends in one of
    three ways: the container is counted as written, it is counted as
    failed, or an exception that is not a [PIWebAPIError], raised by the
    last send, leaves the write with the counters untouched. *)
Theorem write_container_sends_prefix container_name container_id values batch_size
    (s f : nat) (σ : R) :
  0 < batch_size →
  let out := run (write_container remote container_name container_id values
                    batch_size (s, f)) σ in
  ∃ n,
    n ≤ Batching.total_batches values batch_size
    ∧ (calls_of (trace out.2)).*1
      = OMF_send_time_series_data container_id
          <$> take n (Batching.batches values batch_size)
    ∧ sleeps_of (trace out.2) = []
    ∧ (out.1 = Return (s + 1, f)
       ∨ out.1 = Return (s, f + 1)
       ∨ ∃ c e, out.1 = Raise e ∧ is_PIWebAPIError e = false
                ∧ last (calls_of (trace out.2)) = Some (c, Raise e)).
Proof.
  intros Hbs out.
  destruct out as [res w] eqn:Hout. unfold run in Hout.
  apply write_container_outcome in Hout as (_ & Hcalls & Hsleeps & Hres); [|done].
  cbn [remote_state trace] in Hcalls, Hsleeps, Hres.
  change (calls_of []) with (@nil (call * result value)) in Hcalls.
  change (sleeps_of []) with (@nil nat) in Hsleeps. cbn [app] in Hcalls.
  set (idxs := range 0 (length values) batch_size) in *.
  set (log := (deliver remote container_id values batch_size idxs σ).1) in *.
  exists (length log). cbn [fst snd]. rewrite Hcalls. split_and!.
  - pose proof (deliver_length container_id values batch_size idxs σ) as Hlen.
    fold log in Hlen. subst idxs. unfold range in Hlen.
    rewrite length_fmap, length_seq in Hlen.
    unfold Batching.total_batches. by rewrite Nat.sub_0_r in Hlen.
  - subst log. rewrite deliver_attempts.
    unfold Batching.batches, Batching.batch_starts, Batching.batch_at.
    fold idxs. by rewrite <- fmap_take, <- list_fmap_compose.
  - done.
  - rewrite Hres.
    destruct (loop_result_cases log) as [->|[->|(c & e & -> & He & Hl)]];
      [by left|by right; left|].
    right; right. by exists c, e.
Qed.

End write_edges.

Lemma write_container_sends_prefix_witness :
  ∃ n,
    n ≤ 3
    ∧ (Sandbox.calls_of
         (Sandbox.trace
            (Sandbox.run (Sandbox.write_container (Fixtures.flaky_omf 1) "sine1"
                            "M1_sine1" Fixtures.five_records 2 (0, 0)) 0).2)).*1
      = Sandbox.OMF_send_time_series_data "M1_sine1"
          <$> take n (Batching.batches Fixtures.five_records 2).
Proof.
  destruct (write_container_sends_prefix (Fixtures.flaky_omf 1) "sine1" "M1_sine1"
              Fixtures.five_records 2 0 0 0 ltac:(lia)) as (n & Hn & Hc & _).
  exists n. split; [exact Hn | exact Hc].
Defined.

Lemma write_container_completes_witness :
  (Sandbox.run (Sandbox.write_container (Fixtures.flaky_omf 7) "sine1" "M1_sine1"
                  Fixtures.five_records 2 (0, 0)) 0).1
  = Return (1, 0).
Proof.
  refine (proj1 (write_container_completes (Fixtures.flaky_omf 7) "sine1" "M1_sine1"
                   Fixtures.five_records 2 0 0 0 _ _ ltac:(lia)
                   (surjective_pairing _) _)).
  intros [|[|[|[|j]]]] c e; vm_compute; discriminate.
Defined.

Section containers_facts.
Import Sandbox.
Context {R : Type}.
Variable remote : call → R → result value * R.
Variable generate : string → list value.

Lemma deliver_raises container_id values batch_size idxs (σ : R) c e :
  raises_only_PIWebAPIError remote →
  (c, Raise e) ∈ (deliver remote container_id values batch_size idxs σ).1 →
  is_PIWebAPIError e = true.
Proof.
  intros Honly. revert σ. induction idxs as [|i rest IH]; intros σ.
  { simpl. by intros ?%elem_of_nil. }
  simpl. destruct (remote _ σ) as [[v|e'] σ1] eqn:Hr.
  - specialize (IH σ1). destruct (deliver _ _ _ _ rest σ1) as [log σ2]. simpl in *.
    intros [[=]|Hin]%elem_of_cons. by apply IH.
  - simpl. intros [[= -> ->]|Hin%elem_of_nil]%elem_of_cons; [|done].
    by eapply Honly.
Qed.

Lemma deliver_first container_id values batch_size rest (σ : R) :
  ∃ r log,
    (deliver remote container_id values batch_size (0 :: rest) σ).1
    = (OMF_send_time_series_data container_id (take batch_size values), r) :: log.
Proof.
  simpl. unfold slice. rewrite Nat.sub_0_r, drop_0.
  destruct (remote _ σ) as [[v|e'] σ1].
  - destruct (deliver _ _ _ _ rest σ1) as [log σ2]. by eexists _, _.
  - by eexists _, _.
Qed.

Lemma write_containers_outcome (container_ids : list (string * string))
    (batch_size s f : nat) (w w' : world R) (res : result (nat * nat)) :
  0 < batch_size →
  raises_only_PIWebAPIError remote →
  write_containers remote generate container_ids batch_size (s, f) w = (res, w') →
  ∃ s' f' sends,
    res = Return (s', f')
    ∧ s ≤ s' ∧ f ≤ f'
    ∧ s' + f' = s + f + length container_ids
    ∧ calls_of (trace w') = calls_of (trace w) ++ sends
    ∧ sleeps_of (trace w') = sleeps_of (trace w)
    ∧ ∀ container_name container_id,
        (container_name, container_id) ∈ container_ids →
        generate container_name ≠ [] →
        ∃ r, (OMF_send_time_series_data container_id
                (take batch_size (generate container_name)), r) ∈ sends.
Proof.
  intros Hbs Honly. revert s f w.
  induction container_ids as [|[name cid] rest IH]; intros s f w.
  { intros [= <- <-]. exists s, f, []. rewrite app_nil_r.
    split_and!; try done; try (simpl; lia). by intros ? ? ?%elem_of_nil. }
  cbn [write_containers]. unfold bind at 1, print at 1, modify.
  unfold bind at 1, print at 1, modify. unfold bind at 1.
  cbn [remote_state trace].
  destruct (write_container remote name cid (generate name) batch_size (s, f) _)
    as [r1 w1] eqn:Hone.
  apply write_container_outcome in Hone as (Hσ & Hcalls & Hsleeps & Hres); [|done].
  cbn [remote_state trace] in Hσ, Hcalls, Hsleeps, Hres.
  rewrite <- !app_assoc in Hcalls, Hsleeps.
  rewrite calls_of_app in Hcalls. rewrite sleeps_of_app in Hsleeps.
  change (calls_of ([EvPrint _] ++ [EvPrint _])) with (@nil (call * result value))
    in Hcalls.
  change (sleeps_of ([EvPrint _] ++ [EvPrint _])) with (@nil nat) in Hsleeps.
  rewrite app_nil_r in Hcalls. rewrite app_nil_r in Hsleeps.
  set (idxs := range 0 (length (generate name)) batch_size) in *.
  set (log := (deliver remote cid (generate name) batch_size idxs (remote_state w)).1)
    in *.
  assert (r1 = Return (s + 1, f) ∨ r1 = Return (s, f + 1)) as Hr1.
  { rewrite Hres.
    destruct (loop_result_cases log) as [->|[->|(c & e & _ & He & Hl)]];
      [by left|by right|].
    assert ((c, Raise e) ∈ log) as Hin.
    { rewrite last_lookup in Hl. by eapply list_elem_of_lookup_2. }
    apply (deliver_raises _ _ _ _ _ _ _ Honly) in Hin. congruence. }
  assert (∀ container_name container_id,
            (container_name, container_id) = (name, cid) →
            generate container_name ≠ [] →
            ∃ r, (OMF_send_time_series_data container_id
                    (take batch_size (generate container_name)), r) ∈ log)
    as Hfirst.
  { intros ? ? [= -> ->] Hne.
    destruct (range_starts_at_0 (length (generate name)) batch_size Hbs)
      as [tl Htl]; [by destruct (generate name); [|simpl; lia]|].
    subst log idxs. rewrite Htl.
    destruct (deliver_first cid (generate name) batch_size tl (remote_state w))
      as (r & lg & ->).
    exists r. apply list_elem_of_here. }
  destruct Hr1 as [-> | ->]; intros Hrest;
    apply IH in Hrest
      as (s' & f' & sends & -> & Hs & Hf & Hsum & Hc' & Hsl' & Hall);
    exists s', f', (log ++ sends);
    (split_and!;
     [ done | lia | lia | simpl; lia
     | by rewrite Hc', Hcalls, <- app_assoc
     | by rewrite Hsl', Hsleeps
     | intros cn ci [Heq|Hin]%elem_of_cons Hne;
       [ destruct (Hfirst cn ci Heq Hne) as [r Hr]; exists r;
         apply elem_of_app; by left
       | destruct (Hall cn ci Hin Hne) as [r Hr]; exists r;
         apply elem_of_app; by right ] ]).
Qed.

(** X17. Failures stay within their container.  With a positive
    [batch_size] and a service that fails with [PIWebAPIError] only, the loop
    over the containers always returns; every container is counted once, as
    written or as failed; the first batch of every container that has values
    is sent, whatever happened to the containers before it; and the loop
    never sleeps. *)
Theorem write_containers_are_independent (container_ids : list (string * string))
    (batch_size s f : nat) (w w' : world R) (res : result (nat * nat)) :
  0 < batch_size →
  raises_only_PIWebAPIError remote →
  write_containers remote generate container_ids batch_size (s, f) w = (res, w') →
  ∃ s' f' sends,
    res = Return (s', f')
    ∧ s ≤ s' ∧ f ≤ f'
    ∧ s' + f' = s + f + length container_ids
    ∧ calls_of (trace w') = calls_of (trace w) ++ sends
    ∧ sleeps_of (trace w') = sleeps_of (trace w)
    ∧ ∀ container_name container_id,
        (container_name, container_id) ∈ container_ids →
        generate container_name ≠ [] →
        ∃ r, (OMF_send_time_series_data container_id
                (take batch_size (generate container_name)), r) ∈ sends.
Proof. apply write_containers_outcome. Qed.

(** X18. The data phase of use case 2, under the same conditions, always
    returns the container identifiers it was given, twice.  Its summary line
    reports counters that add up to the number of containers, and it waits
    for the buffer, ten seconds and once, exactly when at least one container
    was written; with no container written it does not sleep at all. *)
Theorem write_data_phase_waits_once (container_ids : list (string * string))
    (batch_size : nat) (σ : R) :
  0 < batch_size →
  raises_only_PIWebAPIError remote →
  let out := run (write_data_phase remote generate container_ids batch_size) σ in
  out.1 = Return (container_ids, container_ids)
  ∧ ∃ s f,
      s + f = length container_ids
      ∧ sleeps_of (trace out.2) = (if 0 <? s then [10 * 1000] else [])
      ∧ String (Ascii.ascii_of_nat 10)
          ("Data write summary: " +:+ str_nat s +:+ " successful, "
           +:+ str_nat f +:+ " failed")
        ∈ printed (trace out.2).
Proof.
  intros Hbs Honly out. subst out. unfold run, write_data_phase, bind.
  destruct (write_containers remote generate container_ids batch_size (0, 0) _)
    as [r1 w1] eqn:Hloop.
  apply write_containers_outcome in Hloop
    as (s & f & sends & -> & _ & _ & Hsum & _ & Hsl & _); [|done..].
  cbn [trace] in Hsl. change (sleeps_of []) with (@nil nat) in Hsl.
  unfold bind, print, sleep, modify, ret.
  destruct (0 <? s) eqn:Hs; cbn [fst snd remote_state trace];
    (split; [done|]); exists s, f; rewrite Hs;
    (split_and!; [lia | |]).
  - by rewrite !sleeps_of_app, Hsl.
  - rewrite !printed_app, !elem_of_app. left; left; left; left; left; right.
    apply list_elem_of_here.
  - by rewrite !sleeps_of_app, Hsl.
  - rewrite !printed_app, !elem_of_app. left; left; right.
    apply list_elem_of_here.
Qed.

End containers_facts.

Lemma flaky_omf_raises_only (n : nat) :
  Sandbox.raises_only_PIWebAPIError (Fixtures.flaky_omf n).
Proof.
  intros c σ e σ'. destruct c; simpl; try discriminate.
  destruct (σ =? n); [|discriminate]. by intros [= <- _].
Qed.

Lemma write_containers_are_independent_witness :
  ∃ (s' f' : nat) (sends : list (Sandbox.call * result value)),
    (Sandbox.run
       (Sandbox.write_containers (Fixtures.flaky_omf 1) (λ _, Fixtures.five_records)
          [("sine1", "M1_sine1"); ("sine2", "M1_sine2")] 2 (0, 0)) 0).1
    = Return (s', f')
    ∧ s' + f' = 2
    ∧ ∃ r, (Sandbox.OMF_send_time_series_data "M1_sine2"
              (take 2 Fixtures.five_records), r) ∈ sends.
Proof.
  destruct (write_containers_are_independent (Fixtures.flaky_omf 1)
              (λ _, Fixtures.five_records)
              [("sine1", "M1_sine1"); ("sine2", "M1_sine2")] 2 0 0
              (Sandbox.mk_world 0 []) _ _ ltac:(lia) (flaky_omf_raises_only 1)
              (surjective_pairing _))
    as (s' & f' & sends & Hres & _ & _ & Hsum & _ & _ & Hall).
  exists s', f', sends. split_and!; [exact Hres | exact Hsum |].
  apply (Hall "sine2" "M1_sine2"); [|done].
  apply list_elem_of_further, list_elem_of_here.
Defined.

Lemma write_data_phase_waits_once_witness :
  (Sandbox.run
     (Sandbox.write_data_phase (Fixtures.flaky_omf 1) (λ _, Fixtures.five_records)
        [("sine1", "M1_sine1"); ("sine2", "M1_sine2")] 2) 0).1
  = Return ([("sine1", "M1_sine1"); ("sine2", "M1_sine2")],
            [("sine1", "M1_sine1"); ("sine2", "M1_sine2")]).
Proof.
  exact (proj1 (write_data_phase_waits_once (Fixtures.flaky_omf 1)
                  (λ _, Fixtures.five_records)
                  [("sine1", "M1_sine1"); ("sine2", "M1_sine2")] 2 0
                  ltac:(lia) (flaky_omf_raises_only 1))).
Defined.

(** ** Identifiers in request paths *)

(** X19. The controllers put a stream identifier or a marker into the
    request path as it is; [_encode_path] is not applied.  The path of
    [get_value] and of [retrieve_update] is the path with the encoded
    identifier exactly when the identifier has unreserved characters only;
    a marker with a slash or a question mark reaches the path unescaped. *)
Theorem paths_are_not_encoded
    (respond : list request → request → result value) (ident : string)
    (log : list request) :
  (∃ req,
     Stream.retrieve_update respond ident PyNone PyNone log
     = (respond log req, log ++ [req])
     ∧ req_path req = "streams/updates/" +:+ ident
     ∧ (req_path req = "streams/updates/" +:+ PathCodec._encode_path ident
        ↔ Forall (λ c, PathCodec.always_safe c = true)
                 (String.list_ascii_of_string ident)))
  ∧ (∃ req,
       Stream.get_value respond ident PyNone PyNone PyNone log
       = (respond log req, log ++ [req])
       ∧ req_path req = "streams/" +:+ ident +:+ "/value"
       ∧ (req_path req = "streams/" +:+ PathCodec._encode_path ident +:+ "/value"
          ↔ Forall (λ c, PathCodec.always_safe c = true)
                   (String.list_ascii_of_string ident))).
Proof.
  split; unfold Stream.get_value, bind, lift, _format_time;
    (eexists; split; [reflexivity|]); cbn [req_path]; (split; [done|]);
    rewrite <- quote_fixed_point; unfold PathCodec._encode_path.
  - split; [|by intros ->]. intros Heq. by apply String.app_inj in Heq.
  - split; [|by intros ->]. intros Heq. apply String.app_inj in Heq.
    assert (∀ a b t, a +:+ t = b +:+ t → a = b) as Hcancel.
    { intros a b t H.
      assert (String.length a = String.length b) as Hlen.
      { apply (f_equal String.length) in H. rewrite !length_append in H. lia. }
      revert b H Hlen. induction a as [|x a IH]; intros [|y b] H Hlen;
        try done; try (simpl in Hlen; lia).
      change (String x (a +:+ t) = String y (b +:+ t)) in H.
      injection H as -> H. f_equal. apply IH; [done|]. simpl in Hlen. lia. }
    symmetry. by eapply Hcancel.
Qed.

(** ** Full batches *)

(** X20. Every batch but the last is full: it has exactly [batch_size]
    records.  The last one has what is left, between 1 and [batch_size]
    records, and there is no batch at all exactly when there are no values. *)
Theorem only_the_last_batch_is_short {A : Type} (values : list A) (batch_size : nat) :
  0 < batch_size →
  (∀ k chunk,
     Batching.batches values batch_size !! k = Some chunk →
     S k < length (Batching.batches values batch_size) →
     length chunk = batch_size)
  ∧ (∀ chunk,
       last (Batching.batches values batch_size) = Some chunk →
       length chunk
       = length values
         - (length (Batching.batches values batch_size) - 1) * batch_size
       ∧ 0 < length chunk ≤ batch_size)
  ∧ (Batching.batches values batch_size = [] ↔ values = []).
Proof.
  intros Hbs. rewrite length_batches.
  assert (∀ k, S k < Batching.total_batches values batch_size →
               S k * batch_size ≤ length values) as Hfull.
  { intros k Hk. pose proof (total_batches_tight values batch_size (S k) Hbs Hk). lia. }
  split_and!.
  - intros k chunk Hk Hlt.
    rewrite batches_lookup in Hk by lia. injection Hk as <-.
    rewrite length_take, length_drop. specialize (Hfull k Hlt). lia.
  - intros chunk Hl. rewrite last_lookup, length_batches in Hl.
    destruct (Batching.total_batches values batch_size) as [|t] eqn:Ht.
    { apply lookup_lt_Some in Hl. rewrite length_batches, Ht in Hl. lia. }
    rewrite batches_lookup in Hl by (rewrite Ht; simpl; lia).
    injection Hl as <-. simpl.
    rewrite length_take, length_drop, Nat.sub_0_r.
    pose proof (total_batches_tight values batch_size t Hbs ltac:(lia)).
    pose proof (total_batches_covers values batch_size Hbs) as Hc.
    rewrite Ht in Hc. lia.
  - split.
    + intros Hnil. apply (f_equal length) in Hnil.
      rewrite length_batches in Hnil. simpl in Hnil.
      pose proof (total_batches_covers values batch_size Hbs) as Hc.
      rewrite Hnil in Hc. destruct values; [done|simpl in Hc; lia].
    + intros ->. unfold Batching.batches, Batching.batch_starts.
      cbn [length]. by rewrite range_empty.
Qed.

Lemma only_the_last_batch_is_short_witness :
  last (Batching.batches [10; 20; 30; 40; 50] 2) = Some [50]
  ∧ length [50] = 5 - (length (Batching.batches [10; 20; 30; 40; 50] 2) - 1) * 2.
Proof.
  split; [reflexivity|].
  apply (proj1 (proj2 (only_the_last_batch_is_short [10; 20; 30; 40; 50] 2 ltac:(lia)))
               [50] eq_refl).
Defined.

(** ** Malformed listings *)

(** X21. How the search treats a response that is not a proper listing.
    A dictionary without [Items] lists nothing, so nothing is found; with
    [Items] a list, the list is searched.  A response that is one of the
    other built-in values ([None], a bool, an int, a str, a list, a
    datetime) raises [AttributeError], and [Items] set to [None] raises
    [TypeError].  A response that is an instance of a class of its own does
    what the [get] of its class does: an exception of it leaves the search,
    and a list it returns is searched.  In the first lookup of
    [create_or_get_element] each of these failures counts as "not found". *)
Theorem lookup_named_malformed (objs : Sandbox.objects) (name : string) :
  (∀ d, d !! "Items" = None → Sandbox.lookup_named objs name (PyDict d) = Return None)
  ∧ (∀ d items,
       d !! "Items" = Some (PyList items) →
       Sandbox.lookup_named objs name (PyDict d) = Sandbox.find_named objs name items)
  ∧ (∀ v, (∀ d, v ≠ PyDict d) → (∀ cls, v ≠ PyObj cls) →
       Sandbox.lookup_named objs name v
       = Raise (OtherError "AttributeError"
                  ("'" +:+ type_name v +:+ "' object has no attribute 'get'")))
  ∧ (∀ cls e, Sandbox.obj_get objs cls = Raise e →
       Sandbox.lookup_named objs name (PyObj cls) = Raise e)
  ∧ (∀ cls items, Sandbox.obj_get objs cls = Return (PyList items) →
       Sandbox.lookup_named objs name (PyObj cls) = Sandbox.find_named objs name items)
  ∧ (∀ d, d !! "Items" = Some PyNone →
       Sandbox.lookup_named objs name (PyDict d)
       = Raise (TypeError "'NoneType' object is not iterable"))
  ∧ (∀ r e,
       r = Raise e
       ∨ (∃ v, r = Return v ∧ Sandbox.lookup_named objs name v = Raise e) →
       Sandbox.found_in objs name r = None).
Proof.
  split_and!.
  - intros d Hd. unfold Sandbox.lookup_named, Sandbox.get_items. by rewrite Hd.
  - intros d items Hd. unfold Sandbox.lookup_named, Sandbox.get_items. by rewrite Hd.
  - intros v Hd Hcls. destruct v; try reflexivity.
    + by destruct (Hd d).
    + by destruct (Hcls cls).
  - intros cls e He. unfold Sandbox.lookup_named, Sandbox.get_items. by rewrite He.
  - intros cls items He. unfold Sandbox.lookup_named, Sandbox.get_items.
    by rewrite He.
  - intros d Hd. unfold Sandbox.lookup_named, Sandbox.get_items. by rewrite Hd.
  - intros r e [->|(v & -> & Hv)]; [done|]. unfold Sandbox.found_in. by rewrite Hv.
Qed.
